(** * app.py: a Streamlit front end for PDFs kept in a Backblaze B2 bucket

    A shallow embedding of [src/app.py] and the properties of its
    catalog build loop (tab 2), of [get_signed_url], of
    [download_file_from_b2] and of the two button handlers.

    Conventions of the embedding:
    - Python [str] values are [string]s (UTF-8 bytes); Python [int]s are [Z];
      Python [bytes] are [list byte].
    - The [files] dict of tab 2 is an association list in insertion order,
      which is the iteration order of a Python dict.
    - Code that raises, catches and calls [st.*] or the storage SDK runs in a
      small state-and-exception monad over a [world] (file system, session
      state and a chronological log of widgets and SDK calls).
    - The storage SDK, the operating system and the user are external: their
      answers are read from records of oracles ([Bucket], [OS], [User]). *)

From Stdlib Require Import ZArith List String Ascii Bool Lia.
From Stdlib Require Import Strings.Byte.
From Stdlib Require Import Floats DecimalString.
From Stdlib Require Import Sorted Permutation.
Import ListNotations.

Local Open Scope string_scope.
Local Open Scope Z_scope.

(* ================================================================== *)
(** ** Python built-ins used by the script *)

Module Py.

(** [s.endswith(suffix)]: the last [len(suffix)] characters of [s] are
    [suffix] (false when [s] is shorter). *)
Definition endswith (s suffix : string) : bool :=
  let n := String.length s in
  let m := String.length suffix in
  (m <=? n)%nat && String.eqb (substring (n - m) m s) suffix.

(** Truth value of a [str]: the empty string is falsy. *)
Definition truthy (s : string) : bool :=
  match s with
  | EmptyString => false
  | String _ _ => true
  end.

(** Truth value of a value that is a [str] or [None]. *)
Definition truthy_opt (x : option string) : bool :=
  match x with
  | Some s => truthy s
  | None => false
  end.

(** How an f-string renders a value that is a [str] or [None]. *)
Definition format_opt (x : option string) : string :=
  match x with
  | Some s => s
  | None => "None"
  end.

(** An insertion-ordered dict with [str] keys. *)
Definition dict (V : Type) : Type := list (string * V).

(** [d[k] = v]: an existing key keeps its position and gets the new
    value; a new key goes to the end. *)
Fixpoint setitem {V : Type} (d : dict V) (k : string) (v : V) : dict V :=
  match d with
  | [] => [(k, v)]
  | (k', v') :: d' =>
      if String.eqb k' k then (k', v) :: d'
      else (k', v') :: setitem d' k v
  end.

(** [d.get(k)]. *)
Fixpoint get {V : Type} (d : dict V) (k : string) : option V :=
  match d with
  | [] => None
  | (k', v') :: d' => if String.eqb k' k then Some v' else get d' k
  end.

Definition keys {V : Type} (d : dict V) : list string := map fst d.
Definition values {V : Type} (d : dict V) : list V := map snd d.

(** Truth value of a dict: the empty dict is falsy. *)
Definition nonempty {V : Type} (d : dict V) : bool :=
  match d with
  | [] => false
  | _ :: _ => true
  end.

(** [l.sort(key=key, reverse=True)].  Python's sort is stable, also with
    [reverse=True]: elements with equal keys keep their order.  The model
    is the insertion sort with that property; [sort_desc_unique] below
    shows that every stable descending sort returns the same list. *)
Section Sort.
Context {A : Type} (key : A -> Z).

Fixpoint insert_desc (x : A) (l : list A) : list A :=
  match l with
  | [] => [x]
  | y :: l' =>
      if key y <=? key x then x :: y :: l'
      else y :: insert_desc x l'
  end.

Definition sort_desc (l : list A) : list A :=
  fold_right insert_desc [] l.
End Sort.

(** [l.index(x)] for strings: position of the first equal element. *)
Fixpoint index (l : list string) (x : string) : option nat :=
  match l with
  | [] => None
  | y :: l' =>
      if String.eqb y x then Some 0%nat
      else option_map S (index l' x)
  end.

(** [s.startswith(prefix)]. *)
Definition startswith (s prefix : string) : bool := String.prefix prefix s.

(** [os.path.join(a, b)] of [posixpath]: an absolute [b] replaces [a];
    otherwise [b] is appended, after a slash unless [a] is empty or ends
    in one. *)
Definition path_join (a b : string) : string :=
  if startswith b "/" then b
  else if negb (truthy a) || endswith a "/" then a ++ b
  else a ++ "/" ++ b.

(** The alphabet of [base64.b64encode]. *)
Definition b64_char (i : N) : ascii :=
  if (i <? 26)%N then ascii_of_N (65 + i)
  else if (i <? 52)%N then ascii_of_N (97 + (i - 26))
  else if (i <? 62)%N then ascii_of_N (48 + (i - 52))
  else if (i =? 62)%N then "+"%char
  else "/"%char.

(** [base64.b64encode(data).decode()]: three bytes give four characters;
    a last group of one or two bytes is padded with [=]. *)
Fixpoint b64encode (data : list byte) : string :=
  match data with
  | [] => ""
  | [a] =>
      let n := (Byte.to_N a * 65536)%N in
      String (b64_char (n / 262144))
        (String (b64_char ((n / 4096) mod 64)) "==")
  | [a; b] =>
      let n := (Byte.to_N a * 65536 + Byte.to_N b * 256)%N in
      String (b64_char (n / 262144))
        (String (b64_char ((n / 4096) mod 64))
           (String (b64_char ((n / 64) mod 64)) "="))
  | a :: b :: c :: rest =>
      let n := (Byte.to_N a * 65536 + Byte.to_N b * 256 + Byte.to_N c)%N in
      String (b64_char (n / 262144))
        (String (b64_char ((n / 4096) mod 64))
           (String (b64_char ((n / 64) mod 64))
              (String (b64_char (n mod 64)) (b64encode rest))))
  end.

End Py.

(* ================================================================== *)
(** ** Data *)

(** A [FileVersion] of the SDK, with the attributes the script reads. *)
Record FileVersion : Type := mkFileVersion {
  id_ : string;
  file_name : string;
  size : Z;
  upload_timestamp : Z
}.

(** An element of [bucket.ls()]: the file version and a folder name. *)
Definition ls_item : Type := (FileVersion * option string)%type.

(** The dict literal stored per name in [files] (lines 143-148). *)
Record entry : Type := mkEntry {
  e_id : string;
  e_name : string;
  e_size : Z;
  e_upload_timestamp : Z
}.

(* ================================================================== *)
(** ** The catalog build of tab 2 (lines 135-155) *)

(** One iteration of the loop of lines 139-148. *)
Definition catalog_step (files : Py.dict entry) (file_info_tuple : ls_item)
  : Py.dict entry :=
  let file_version := fst file_info_tuple in
  if Py.endswith (file_name file_version) ".pdf" then
    Py.setitem files (file_name file_version)
      {| e_id := id_ file_version;
         e_name := file_name file_version;
         e_size := size file_version;
         e_upload_timestamp := upload_timestamp file_version |}
  else files.

(** [files] after the loop, starting from [files = {}]. *)
Definition build_files (file_versions : list ls_item) : Py.dict entry :=
  fold_left catalog_step file_versions [].

(** [file_list] after lines 152-155. *)
Definition sorted_file_list (files : Py.dict entry) : list entry :=
  Py.sort_desc e_upload_timestamp (Py.values files).

(** The catalog shown by the browse view: the sorted list when [files] is
    non-empty, nothing otherwise (the [else] branch of line 253). *)
Definition catalog (file_versions : list ls_item) : list entry :=
  let files := build_files file_versions in
  if Py.nonempty files then sorted_file_list files else [].

(* ================================================================== *)
(** ** The world of the script: widgets, SDK calls, files, session *)

(** An [Exception] instance, identified by its [str()]. *)
Definition exn : Type := string.

(** What the script shows and which SDK methods it calls, in the order in
    which it happens.  ([st.spinner] and [st.columns] only lay out the
    page and are left out.) *)
Inductive event : Type :=
| st_title (body : string)
| st_tabs (labels : list string)
| st_header (body : string)
| st_info (body : string)
| st_success (body : string)
| st_error (body : string)
| st_markdown (body : string)
| st_caption (body : string)
| st_file_uploader (label : string)
| st_button (label : string)
| st_selectbox (label : string) (options : list string) (index : nat)
| st_download_button (label : string) (data : list byte)
    (name : string) (mime : string)
| call_ls
| call_upload_bytes (data_bytes : list byte) (name : string)
    (content_type : string)
| call_download_file_by_id (file_id : string)
| call_get_download_authorization (name : string) (valid_duration : Z)
| call_get_download_url (name : string).

(** The dict appended to [st.session_state.uploaded_files]
    (lines 117-122). *)
Record upload_record : Type := mkUpload {
  u_name : string;
  u_id : string;
  u_size : Z;
  u_timestamp : float
}.

Record world : Type := mkWorld {
  fs : string -> option (list byte);
  uploaded_files : option (list upload_record);
  log : list event
}.

Definition emit (e : event) (w : world) : world :=
  {| fs := fs w; uploaded_files := uploaded_files w; log := (log w ++ [e])%list |}.

Definition write_file (path : string) (data : option (list byte))
  (w : world) : world :=
  {| fs := fun p => if String.eqb p path then data else fs w p;
     uploaded_files := uploaded_files w;
     log := log w |}.

Definition set_uploaded_files (u : option (list upload_record))
  (w : world) : world :=
  {| fs := fs w; uploaded_files := u; log := log w |}.

(** *** The monad: state of the world, and exceptions *)

Inductive result (A : Type) : Type :=
| Ok (a : A)
| Raise (e : exn).
Arguments Ok {A} a.
Arguments Raise {A} e.

Definition M (A : Type) : Type := world -> result A * world.

Definition ret {A : Type} (a : A) : M A := fun w => (Ok a, w).

Definition raise {A : Type} (e : exn) : M A := fun w => (Raise e, w).

Definition bind {A B : Type} (m : M A) (k : A -> M B) : M B :=
  fun w =>
    match m w with
    | (Ok a, w') => k a w'
    | (Raise e, w') => (Raise e, w')
    end.

(** [try: body  except Exception as e: handler]. *)
Definition try_except {A : Type} (body : M A) (handler : exn -> M A) : M A :=
  fun w =>
    match body w with
    | (Ok a, w') => (Ok a, w')
    | (Raise e, w') => handler e w'
    end.

Declare Scope py_scope.
Delimit Scope py_scope with py.
Notation "x <- m ;; k" := (bind m (fun x => k))
  (at level 61, m at next level, right associativity) : py_scope.
Notation "m ;; k" := (bind m (fun _ => k))
  (at level 61, right associativity) : py_scope.
Local Open Scope py_scope.

(** A [st.*] call that only shows something. *)
Definition show (e : event) : M unit := fun w => (Ok tt, emit e w).

(** The answer of an external call: an exception or a value. *)
Definition answer {A : Type} (e : event) (r : exn + A) : M A :=
  fun w =>
    match r with
    | inl x => (Raise x, emit e w)
    | inr a => (Ok a, emit e w)
    end.

(* ================================================================== *)
(** ** External collaborators *)

(** The object returned by [bucket.download_file_by_id]: [save(f)] writes
    [saved] to [f] and then returns, or raises [save_raises]. *)
Record DownloadedFile : Type := mkDownloaded {
  saved : list byte;
  save_raises : option exn
}.

(** The [bucket] of the SDK: what each method returns or raises. *)
Record Bucket : Type := mkBucket {
  ls : exn + list ls_item;
  upload_bytes : list byte -> string -> string -> exn + FileVersion;
  download_file_by_id : string -> exn + DownloadedFile;
  get_download_authorization : string -> Z -> exn + string;
  get_download_url : string -> exn + string
}.

(** The operating system and the Python runtime. *)
Record OS : Type := mkOS {
  (** what [tempfile.gettempdir()] returns, and the exception it raises
      instead when no usable directory is found *)
  gettempdir : string;
  gettempdir_raises : option exn;
  time_time : float;
  open_wb_raises : string -> option exn;
  open_rb_raises : string -> option exn;
  read_raises : string -> option exn;
  remove_raises : string -> option exn;
  (** the text of [f"{n/1024:.2f}"] for an int [n] *)
  kb_2f : Z -> string
}.

(** What the user does on the page in one run of the script. *)
Record User : Type := mkUser {
  uploaded_file : option (string * list byte);
  click_enviar : bool;
  selected_option : nat;
  click_visualizar : bool;
  click_download : bool
}.

(* ================================================================== *)
(** ** The script *)

Definition dq : string := String (ascii_of_nat 34) EmptyString.
Definition nl : string := String (ascii_of_nat 10) EmptyString.

Fixpoint spaces (n : nat) : string :=
  match n with
  | O => ""
  | S n' => String " " (spaces n')
  end.

(** The text shared by the two links, from [<button] to the closing
    quotes of the f-strings of lines 186-200 and 212-226. *)
Definition button_html : string :=
  spaces 36 ++ "<button style=" ++ dq ++ nl ++
  spaces 40 ++ "background-color: #4CAF50;" ++ nl ++
  spaces 40 ++ "color: white;" ++ nl ++
  spaces 40 ++ "padding: 10px 24px;" ++ nl ++
  spaces 40 ++ "border: none;" ++ nl ++
  spaces 40 ++ "border-radius: 4px;" ++ nl ++
  spaces 40 ++ "cursor: pointer;" ++ nl ++
  spaces 40 ++ "font-size: 16px;" ++ nl ++
  spaces 36 ++ dq ++ ">" ++ nl ++
  spaces 40 ++ "Abrir PDF em nova aba" ++ nl ++
  spaces 36 ++ "</button>" ++ nl ++
  spaces 32 ++ "</a>" ++ nl ++
  spaces 32.

Definition link_html (href : string) : string :=
  nl ++ spaces 32 ++ "<a href=" ++ dq ++ href ++ dq ++
  " target=" ++ dq ++ "_blank" ++ dq ++ ">" ++ nl ++ button_html.

(** [open_link] of line 186. *)
Definition open_link (file_url : string) : string := link_html file_url.

(** [alt_href] of line 212. *)
Definition alt_href (b64_pdf : string) : string :=
  link_html ("data:application/pdf;base64," ++ b64_pdf).

Definition FileNotFoundError (path : string) : exn :=
  "[Errno 2] No such file or directory: '" ++ path ++ "'".

Definition ValueError_not_in_list : exn := "None is not in list".

Definition IndexError_list : exn := "list index out of range".

Section App.

Variable os : OS.

(** What [initialize_b2()] returns or raises (lines 17-34: only SDK calls
    and secrets; the value is cached by [st.cache_resource]). *)
Variable initialize_b2_answer : exn + Bucket.

Variable user : User.

Definition initialize_b2 : M Bucket :=
  fun w =>
    match initialize_b2_answer with
    | inl e => (Raise e, w)
    | inr bucket => (Ok bucket, w)
    end.

(** [with open(path, 'wb') as f: download_dest.save(f)] (lines 46-47):
    opening creates or truncates the file; what [save] wrote stays in the
    file when [save] raises. *)
Definition save_to (download_dest : DownloadedFile) (path : string)
  : M unit :=
  fun w =>
    match open_wb_raises os path with
    | Some e => (Raise e, w)
    | None =>
        let w' := write_file path (Some (saved download_dest)) w in
        match save_raises download_dest with
        | Some e => (Raise e, w')
        | None => (Ok tt, w')
        end
    end.

(** [with open(path, 'rb') as f: file_content = f.read()]
    (lines 50-51). *)
Definition read_from (path : string) : M (list byte) :=
  fun w =>
    match open_rb_raises os path with
    | Some e => (Raise e, w)
    | None =>
        match fs w path with
        | None => (Raise (FileNotFoundError path), w)
        | Some content =>
            match read_raises os path with
            | Some e => (Raise e, w)
            | None => (Ok content, w)
            end
        end
    end.

(** [os.path.exists(path)]. *)
Definition os_path_exists (path : string) : M bool :=
  fun w =>
    match fs w path with
    | Some _ => (Ok true, w)
    | None => (Ok false, w)
    end.

(** [os.remove(path)]. *)
Definition os_remove (path : string) : M unit :=
  fun w =>
    match remove_raises os path with
    | Some e => (Raise e, w)
    | None =>
        match fs w path with
        | None => (Raise (FileNotFoundError path), w)
        | Some _ => (Ok tt, write_file path None w)
        end
    end.

(** [tempfile.gettempdir()]. *)
Definition tempfile_gettempdir : M string :=
  fun w =>
    match gettempdir_raises os with
    | Some e => (Raise e, w)
    | None => (Ok (gettempdir os), w)
    end.

(** The [try] statement of [download_file_from_b2] (lines 43-60). *)
Definition download_try (bucket : Bucket) (file_id temp_file_path : string)
  : M (list byte) :=
  try_except
    (download_dest <-
       answer (call_download_file_by_id file_id)
         (download_file_by_id bucket file_id) ;;
     save_to download_dest temp_file_path ;;
     file_content <- read_from temp_file_path ;;
     present <- os_path_exists temp_file_path ;;
     (if present : bool then os_remove temp_file_path else ret tt) ;;
     ret file_content)
    (fun e =>
       show (st_error ("Erro ao baixar arquivo: " ++ e)) ;;
       raise e).

(** [download_file_from_b2] (lines 37-60).  Lines 39-40 stand before the
    [try] of line 43: an exception of [tempfile.gettempdir()] goes to the
    caller without any message. *)
Definition download_file_from_b2 (bucket : Bucket)
  (file_id file_name : string) : M (list byte) :=
  temp_dir <- tempfile_gettempdir ;;
  let temp_file_path := Py.path_join temp_dir file_name in
  download_try bucket file_id temp_file_path.

(** [get_signed_url] (lines 63-76); [None] is Python's [None]. *)
Definition get_signed_url (bucket : Bucket) (file_name : string)
  (valid_duration : Z) : M (option string) :=
  try_except
    (auth_token <-
       answer (call_get_download_authorization file_name valid_duration)
         (get_download_authorization bucket file_name valid_duration) ;;
     base_url <-
       answer (call_get_download_url file_name)
         (get_download_url bucket file_name) ;;
     ret (Some (base_url ++ "?Authorization=" ++ auth_token)))
    (fun e =>
       show (st_error ("Erro ao gerar URL assinada: " ++ e)) ;;
       ret None).

(** The body of [if st.button("Visualizar PDF"):] (lines 173-230). *)
Definition visualizar_pdf (bucket : Bucket) (selected_file : entry)
  : M unit :=
  try_except
    (let file_id := e_id selected_file in
     let file_name := e_name selected_file in
     file_url <- get_signed_url bucket file_name 60 ;;
     if Py.truthy_opt file_url then
       show (st_success "URL autorizada gerada com sucesso!") ;;
       show (st_markdown (open_link (Py.format_opt file_url)))
     else
       show (st_error
         "Não foi possível gerar a URL. Tentando método alternativo...") ;;
       pdf_bytes <- download_file_from_b2 bucket file_id file_name ;;
       let b64_pdf := Py.b64encode pdf_bytes in
       show (st_success "PDF carregado usando método alternativo!") ;;
       show (st_markdown (alt_href b64_pdf)))
    (fun e => show (st_error ("Erro ao visualizar arquivo: " ++ e))).

(** The body of [if st.button("Download PDF"):] (lines 234-252). *)
Definition download_pdf (bucket : Bucket) (selected_file : entry)
  : M unit :=
  try_except
    (let file_id := e_id selected_file in
     let file_name := e_name selected_file in
     pdf_bytes <- download_file_from_b2 bucket file_id file_name ;;
     show (st_download_button "Clique aqui para baixar o arquivo"
             pdf_bytes file_name "application/pdf"))
    (fun e => show (st_error ("Erro ao preparar download: " ++ e))).

(** The label of a catalog entry in the select box (lines 160, 165). *)
Definition option_label (file : entry) : string :=
  e_name file ++ " (" ++ kb_2f os (e_size file) ++ " KB)".

(** [st.selectbox(label, options, index=0)]: the option the user picked,
    [None] when there is no such option. *)
Definition selectbox (label : string) (options : list string)
  : M (option string) :=
  fun w =>
    (Ok (nth_error options (selected_option user)),
     emit (st_selectbox label options 0) w).

(** [options.index(selected_filename)]. *)
Definition index_of (options : list string) (x : option string) : M nat :=
  match x with
  | Some s =>
      match Py.index options s with
      | Some i => ret i
      | None => raise ("'" ++ s ++ "' is not in list")
      end
  | None => raise ValueError_not_in_list
  end.

(** [file_list[selected_index]]. *)
Definition getitem (file_list : list entry) (i : nat) : M entry :=
  match nth_error file_list i with
  | Some file => ret file
  | None => raise IndexError_list
  end.

(** [if st.button(label): body]. *)
Definition button (label : string) (clicked : bool) (body : M unit)
  : M unit :=
  show (st_button label) ;;
  if clicked then body else ret tt.

(** [st.session_state.uploaded_files.append(r)], after creating the list
    when the key is missing (lines 114-122). *)
Definition remember_upload (r : upload_record) : M unit :=
  fun w =>
    let current :=
      match uploaded_files w with
      | None => []
      | Some l => l
      end in
    (Ok tt, set_uploaded_files (Some (current ++ [r])%list) w).

(** [with tab1:] (lines 84-125). *)
Definition tab1 : M unit :=
  show (st_header "Upload de PDF para o Backblaze") ;;
  show (st_file_uploader "Escolha um arquivo PDF") ;;
  match uploaded_file user with
  | None => ret tt
  | Some (name, value) =>
      let file_size := Z.of_nat (List.length value) in
      show (st_info ("Arquivo: " ++ name ++ " (" ++ kb_2f os file_size
                       ++ " KB)")) ;;
      button "Enviar para o Backblaze" (click_enviar user)
        (try_except
           (bucket <- initialize_b2 ;;
            let file_data := value in
            let file_name := name in
            file_info <-
              answer (call_upload_bytes file_data file_name "application/pdf")
                (upload_bytes bucket file_data file_name "application/pdf") ;;
            show (st_success ("Arquivo enviado com sucesso! ID: "
                                ++ id_ file_info)) ;;
            remember_upload
              {| u_name := file_name;
                 u_id := id_ file_info;
                 u_size := file_size;
                 u_timestamp := time_time os |})
           (fun e => show (st_error ("Erro ao enviar arquivo: " ++ e))))
  end.

(** Lines 164-252 of tab 2: find the selected entry, then the two
    buttons. *)
Definition tab2_selected (bucket : Bucket) (file_list : list entry)
  (options : list string) (selected_filename : option string) : M unit :=
  selected_index <- index_of options selected_filename ;;
  selected_file <- getitem file_list selected_index ;;
  button "Visualizar PDF" (click_visualizar user)
    (visualizar_pdf bucket selected_file) ;;
  button "Download PDF" (click_download user)
    (download_pdf bucket selected_file).

(** [with tab2:] (lines 127-257). *)
Definition tab2 : M unit :=
  show (st_header "Visualizar/Download de PDFs") ;;
  try_except
    (bucket <- initialize_b2 ;;
     file_versions <- answer call_ls (ls bucket) ;;
     let files := build_files file_versions in
     if Py.nonempty files then
       let file_list := sorted_file_list files in
       let options := map option_label file_list in
       selected_filename <- selectbox "Selecione um arquivo PDF" options ;;
       tab2_selected bucket file_list options selected_filename
     else
       show (st_info "Nenhum arquivo PDF encontrado no bucket."))
    (fun e => show (st_error ("Erro ao listar arquivos: " ++ e))).

End App.

(** [st.cache_resource] (line 17) keeps what a call of [initialize_b2]
    returned and answers the later calls with it; a call that raised is
    not kept, and the next call runs the body again.  [first] is the
    answer to the first call, [retry] what the body does when it is run
    again. *)
Definition cached_answer (first retry : exn + Bucket) : exn + Bucket :=
  match first with
  | inr bucket => inr bucket
  | inl _ => retry
  end.

(** Whether the upload tab reaches the call of line 98. *)
Definition tab1_initializes (user : User) : bool :=
  match uploaded_file user with
  | Some _ => click_enviar user
  | None => false
  end.

(** The answer to the call of line 132: the first call of the run when
    the upload tab made none, the second otherwise. *)
Definition tab2_answer (user : User) (first retry : exn + Bucket)
  : exn + Bucket :=
  if tab1_initializes user then cached_answer first retry else first.

(** One run of the script (lines 79-261). *)
Definition app (os : OS) (first retry : exn + Bucket) (user : User)
  : M unit :=
  show (st_title "Sistema de Gerenciamento de PDFs") ;;
  show (st_tabs ["Upload de PDFs"; "Visualizar/Download de PDFs"]) ;;
  tab1 os first user ;;
  tab2 os (tab2_answer user first retry) user ;;
  show (st_markdown "---") ;;
  show (st_caption "Sistema de Gerenciamento de PDFs com Backblaze B2").

(* ================================================================== *)
(** ** Vocabulary of the properties *)

Section Order.

Context {A : Type} (key : A -> Z).

(** [a] may stand before [b] in a list sorted by descending key. *)
Definition desc (a b : A) : Prop := key b <= key a.

(** The elements of [l] whose key is [t], in the order of [l]. *)
Definition with_key (t : Z) (l : list A) : list A :=
  filter (fun x => key x =? t) l.

(** [l'] keeps the order that [l] gives to elements of equal key. *)
Definition stable (l' l : list A) : Prop :=
  forall t : Z, with_key t l' = with_key t l.

End Order.

(** The dict literal of lines 143-148, as a function of the record. *)
Definition entry_of (file_version : FileVersion) : entry :=
  {| e_id := id_ file_version;
     e_name := file_name file_version;
     e_size := size file_version;
     e_upload_timestamp := upload_timestamp file_version |}.

(** The test of line 142. *)
Definition accepted (t : ls_item) : bool :=
  Py.endswith (file_name (fst t)) ".pdf".

(** What holds of [files] after the records [seen] have been read. *)
Definition files_inv (seen : list ls_item) (files : Py.dict entry) : Prop :=
  NoDup (Py.keys files) /\
  forall k v, In (k, v) files ->
    e_name v = k /\ Py.endswith k ".pdf" = true /\
    exists t, In t seen /\ accepted t = true /\ v = entry_of (fst t).

(** The last record of [l] named [k], if any. *)
Fixpoint last_named (k : string) (l : list ls_item) : option FileVersion :=
  match l with
  | [] => None
  | t :: l' =>
      match last_named k l' with
      | Some r => Some r
      | None =>
          if String.eqb (file_name (fst t)) k then Some (fst t) else None
      end
  end.

(** Lower-casing of ASCII letters. *)
Definition lower_ascii (c : ascii) : ascii :=
  let n := nat_of_ascii c in
  if ((65 <=? n) && (n <=? 90))%nat then ascii_of_nat (n + 32) else c.

Fixpoint lower (s : string) : string :=
  match s with
  | EmptyString => EmptyString
  | String c s' => String (lower_ascii c) (lower s')
  end.


(** An earlier record is no newer than a later record of the same name. *)
Definition older_first (t1 t2 : ls_item) : Prop :=
  file_name (fst t1) = file_name (fst t2) ->
  upload_timestamp (fst t1) <= upload_timestamp (fst t2).

(** Every run of [m] appends to the log, and what it appends satisfies
    [P]. *)
Definition emits {A : Type} (P : event -> Prop) (m : M A) : Prop :=
  forall w, exists evs,
    log (snd (m w)) = (log w ++ evs)%list /\ Forall P evs.

(** The events that the run of [m] from [w] adds to the log. *)
Definition emitted {A : Type} (m : M A) (w : world) : list event :=
  skipn (List.length (log w)) (log (snd (m w))).

(** [m] neither reads nor writes the session's upload list. *)
Definition oblivious {A : Type} (m : M A) : Prop :=
  forall w u,
    m (set_uploaded_files u w) =
    (fst (m w), set_uploaded_files u (snd (m w))).

Definition is_selectbox (e : event) : Prop :=
  match e with
  | st_selectbox _ _ _ => True
  | _ => False
  end.

Definition not_selectbox (e : event) : Prop := ~ is_selectbox e.

Definition is_error (e : event) : bool :=
  match e with
  | st_error _ => true
  | _ => false
  end.

(** The exception with which the issuance of a signed URL fails, if it
    fails: either SDK call of [get_signed_url] may raise. *)
Definition sign_failure (bucket : Bucket) (name : string) (d : Z)
  : option exn :=
  match get_download_authorization bucket name d with
  | inl e => Some e
  | inr _ =>
      match get_download_url bucket name with
      | inl e => Some e
      | inr _ => None
      end
  end.

(** The SDK calls that [get_signed_url] makes. *)
Definition sign_calls (bucket : Bucket) (name : string) (d : Z)
  : list event :=
  call_get_download_authorization name d ::
  match get_download_authorization bucket name d with
  | inl _ => []
  | inr _ => [call_get_download_url name]
  end.

Definition emit_all (evs : list event) (w : world) : world :=
  fold_left (fun w' e => emit e w') evs w.

(** The scratch file of a download round trip (lines 39-40). *)
Definition temp_file_path (os : OS) (name : string) : string :=
  Py.path_join (gettempdir os) name.

Definition fallback_notice : string :=
  "Não foi possível gerar a URL. Tentando método alternativo...".

(* ================================================================== *)
(** ** Sample collaborators *)

(** [f"{n/1024:.2f}"] for an int [0 <= n < 2^53], for which [n/1024] is
    exact: hundredths rounded half to even. *)
Definition kb_2f_exact (n : Z) : string :=
  let q := (n * 25) / 256 in
  let r := (n * 25) mod 256 in
  let h := if (128 <? r) || ((r =? 128) && Z.odd q) then q + 1 else q in
  let d := h mod 100 in
  NilZero.string_of_uint (N.to_uint (Z.to_N (h / 100))) ++ "." ++
  NilZero.string_of_uint (N.to_uint (Z.to_N (d / 10))) ++
  NilZero.string_of_uint (N.to_uint (Z.to_N (d mod 10))).

Definition sample_os : OS :=
  {| gettempdir := "/tmp";
     gettempdir_raises := None;
     time_time := 1762128000%float;
     open_wb_raises := fun _ => None;
     open_rb_raises := fun _ => None;
     read_raises := fun _ => None;
     remove_raises := fun _ => None;
     kb_2f := kb_2f_exact |}.

Definition sample_bucket (listing : list ls_item) (authorization : exn + string)
  (download : exn + DownloadedFile) : Bucket :=
  {| ls := inr listing;
     upload_bytes := fun _ name _ => inr (mkFileVersion "4_z27c_f1001" name 0 0);
     download_file_by_id := fun _ => download;
     get_download_authorization := fun _ _ => authorization;
     get_download_url :=
       fun name => inr ("https://f000.backblazeb2.com/file/pdfs/" ++ name) |}.

Definition sample_user : User :=
  {| uploaded_file := None;
     click_enviar := false;
     selected_option := 0;
     click_visualizar := true;
     click_download := false |}.

Definition empty_world : world :=
  {| fs := fun _ => None; uploaded_files := None; log := [] |}.

Definition pdf_magic : list byte := [x25; x50; x44; x46]%byte.

Definition tied_listing : list ls_item :=
  [ (mkFileVersion "id-b" "b.pdf" 2048 100, None);
    (mkFileVersion "id-c" "c.pdf" 1024 300, None);
    (mkFileVersion "id-a" "a.pdf" 128 100, None) ].

Definition no_pdf_listing : list ls_item :=
  [ (mkFileVersion "id-n" "notes.txt" 12 5, None);
    (mkFileVersion "id-p" "SCAN.PDF" 99 7, None) ].


Definition refusing_bucket : Bucket :=
  sample_bucket tied_listing (inl "download authorization refused")
    (inr (mkDownloaded pdf_magic None)).

Definition breaking_bucket : Bucket :=
  sample_bucket tied_listing (inl "download authorization refused")
    (inr (mkDownloaded [x25; x50]%byte (Some "connection reset by peer"))).

Definition unreadable_os : OS :=
  {| gettempdir := "/tmp";
     gettempdir_raises := None;
     time_time := 1762128000%float;
     open_wb_raises := fun _ => None;
     open_rb_raises := fun _ => None;
     read_raises := fun _ => Some "[Errno 5] Input/output error";
     remove_raises := fun _ => None;
     kb_2f := kb_2f_exact |}.

Definition homeless_os : OS :=
  {| gettempdir := "";
     gettempdir_raises :=
       Some "[Errno 2] No usable temporary directory found";
     time_time := 1762128000%float;
     open_wb_raises := fun _ => None;
     open_rb_raises := fun _ => None;
     read_raises := fun _ => None;
     remove_raises := fun _ => None;
     kb_2f := kb_2f_exact |}.

Definition entry_c : entry := mkEntry "id-c" "c.pdf" 1024 300.

(** C7 as the specification states it, for one view operation. *)
Definition C7_as_stated (os : OS) (bucket : Bucket) (selected_file : entry)
  (w : world) : Prop :=
  forall e, sign_failure bucket (e_name selected_file) 60 = Some e ->
  In (call_download_file_by_id (e_id selected_file))
     (emitted (visualizar_pdf os bucket selected_file) w) /\
  existsb is_error (emitted (visualizar_pdf os bucket selected_file) w)
    = false.

(* ================================================================== *)
(** ** Vocabulary of the further properties *)

(** The name of a listed record. *)
Definition name_of (t : ls_item) : string := file_name (fst t).

(** The names of the accepted records of [l] that are not in [seen], each
    once, in the order in which they first appear. *)
Fixpoint first_seen (seen : list string) (l : list ls_item) : list string :=
  match l with
  | [] => []
  | t :: l' =>
      if accepted t && negb (existsb (String.eqb (name_of t)) seen)
      then name_of t :: first_seen (seen ++ [name_of t]) l'
      else first_seen seen l'
  end.

(** A catalog entry read back as a listed record. *)
Definition relist (e : entry) : ls_item :=
  (mkFileVersion (e_id e) (e_name e) (e_size e) (e_upload_timestamp e), None).

(** The upload timestamp that [files] holds for the name [k]. *)
Definition timestamp_in (files : Py.dict entry) (k : string) : option Z :=
  option_map e_upload_timestamp (Py.get files k).

(** [m] never lets an exception out. *)
Definition returns {A : Type} (m : M A) : Prop :=
  forall w, exists a, fst (m w) = Ok a.

(** [m] leaves the file at [p] as it was. *)
Definition keeps_file {A : Type} (p : string) (m : M A) : Prop :=
  forall w, fs (snd (m w)) p = fs w p.

(** A request for an object of the bucket concerns an entry of
    [file_list]; signed URLs are asked for 60 seconds; nothing is
    uploaded. *)
Definition asks_within (file_list : list entry) (e : event) : Prop :=
  match e with
  | call_download_file_by_id i => In i (map e_id file_list)
  | call_get_download_authorization n d =>
      In n (map e_name file_list) /\ d = 60
  | call_get_download_url n => In n (map e_name file_list)
  | call_upload_bytes _ _ _ => False
  | _ => True
  end.

(** The event is no request for an object: no upload, download or signed
    URL. *)
Definition no_object_request (e : event) : Prop :=
  match e with
  | call_upload_bytes _ _ _ => False
  | call_download_file_by_id _ => False
  | call_get_download_authorization _ _ => False
  | call_get_download_url _ => False
  | _ => True
  end.

(** An upload request carries the bytes and the name of the chosen file,
    with the PDF content type; nothing else is requested. *)
Definition uploads_only (user : User) (e : event) : Prop :=
  match e with
  | call_upload_bytes data name content_type =>
      uploaded_file user = Some (name, data) /\
      click_enviar user = true /\
      content_type = "application/pdf"
  | call_ls => False
  | call_download_file_by_id _ => False
  | call_get_download_authorization _ _ => False
  | call_get_download_url _ => False
  | _ => True
  end.

(** The exception with which the browse view fails to obtain a listing,
    if it fails: [initialize_b2()] or [bucket.ls()] may raise. *)
Definition listing_failure (initialize_b2_answer : exn + Bucket)
  : option exn :=
  match initialize_b2_answer with
  | inl e => Some e
  | inr bucket =>
      match ls bucket with
      | inl e => Some e
      | inr _ => None
      end
  end.

(** The exception with which an upload fails, if it fails:
    [initialize_b2()] or [bucket.upload_bytes] may raise. *)
Definition upload_failure (initialize_b2_answer : exn + Bucket)
  (data : list byte) (name : string) : option exn :=
  match initialize_b2_answer with
  | inl e => Some e
  | inr bucket =>
      match upload_bytes bucket data name "application/pdf" with
      | inl e => Some e
      | inr _ => None
      end
  end.

Definition mixed_listing : list ls_item :=
  [ (mkFileVersion "id-1" "b.pdf" 2048 100, None);
    (mkFileVersion "id-2" "notes.txt" 12 500, None);
    (mkFileVersion "id-3" "a.pdf" 128 100, None);
    (mkFileVersion "id-4" "b.pdf" 4096 400, None) ].

Definition uploading_user : User :=
  {| uploaded_file := Some ("new.pdf", pdf_magic);
     click_enviar := true;
     selected_option := 0;
     click_visualizar := false;
     click_download := false |}.

Definition idle_user : User :=
  {| uploaded_file := None;
     click_enviar := false;
     selected_option := 1;
     click_visualizar := false;
     click_download := false |}.

Definition downloading_user : User :=
  {| uploaded_file := None;
     click_enviar := false;
     selected_option := 0;
     click_visualizar := false;
     click_download := true |}.

Definition retrying_user : User :=
  {| uploaded_file := Some ("new.pdf", pdf_magic);
     click_enviar := true;
     selected_option := 0;
     click_visualizar := false;
     click_download := true |}.

Definition signing_bucket : Bucket :=
  sample_bucket tied_listing (inr "3_token") (inr (mkDownloaded pdf_magic None)).

Definition failing_bucket : Bucket :=
  {| ls := inl "bucket listing timed out";
     upload_bytes := fun _ _ _ => inl "upload rejected";
     download_file_by_id := fun _ => inl "file not present";
     get_download_authorization := fun _ _ => inl "refused";
     get_download_url := fun _ => inl "refused" |}.

(* ================================================================== *)
(** * Properties *)

(** ** Strings *)

Section Strings.

Lemma length_app (s t : string) :
  String.length (s ++ t) = (String.length s + String.length t)%nat.
Proof. induction s as [|c s IH]; simpl; [reflexivity | now rewrite IH]. Qed.

Lemma substring_all (t : string) : substring 0 (String.length t) t = t.
Proof. induction t as [|c t IH]; simpl; [reflexivity | now rewrite IH]. Qed.

Lemma substring_after (p t : string) :
  substring (String.length p) (String.length t) (p ++ t) = t.
Proof.
  induction p as [|c p IH]; simpl.
  - apply substring_all.
  - exact IH.
Qed.

Lemma split_at (s : string) :
  forall k : nat, (k <= String.length s)%nat ->
  s = substring 0 k s ++ substring k (String.length s - k) s.
Proof.
  induction s as [|c s IH]; intros k Hk.
  - destruct k; reflexivity.
  - destruct k as [|k]; simpl.
    + now rewrite substring_all.
    + f_equal. apply IH. simpl in Hk. lia.
Qed.

(** [endswith] holds exactly of the strings that are some prefix followed
    by the suffix. *)
Lemma endswith_iff (s suffix : string) :
  Py.endswith s suffix = true <-> exists p, s = p ++ suffix.
Proof.
  unfold Py.endswith. split.
  - intros H. apply andb_true_iff in H as [Hle Heq].
    apply Nat.leb_le in Hle. apply String.eqb_eq in Heq.
    exists (substring 0 (String.length s - String.length suffix) s).
    assert (Hk : (String.length s - String.length suffix
                    <= String.length s)%nat) by lia.
    pose proof (split_at s _ Hk) as Hs.
    replace (String.length s - (String.length s - String.length suffix))%nat
      with (String.length suffix) in Hs by lia.
    rewrite Heq in Hs. exact Hs.
  - intros [p ->]. rewrite length_app. apply andb_true_iff. split.
    + apply Nat.leb_le. lia.
    + replace (String.length p + String.length suffix
                 - String.length suffix)%nat
        with (String.length p) by lia.
      rewrite substring_after. apply String.eqb_refl.
Qed.

Lemma app_inj_same_length (p q s t : string) :
  String.length s = String.length t -> p ++ s = q ++ t -> s = t.
Proof.
  revert q. induction p as [|c p IH]; intros q Hlen H.
  - destruct q as [|d q]; [exact H|].
    simpl in H. apply (f_equal String.length) in H.
    simpl in H. rewrite length_app in H. lia.
  - destruct q as [|d q].
    + simpl in H. apply (f_equal String.length) in H.
      simpl in H. rewrite length_app in H. lia.
    + simpl in H. injection H as _ H. now apply (IH q).
Qed.

(** A string has at most one suffix of a given length. *)
Lemma endswith_same_length (s suffix suffix' : string) :
  String.length suffix = String.length suffix' ->
  Py.endswith s suffix = true -> Py.endswith s suffix' = true ->
  suffix = suffix'.
Proof.
  intros Hlen H H'.
  apply endswith_iff in H as [p Hp]. apply endswith_iff in H' as [q Hq].
  rewrite Hp in Hq. now apply (app_inj_same_length p q).
Qed.

End Strings.

(** ** The insertion-ordered dict *)

Section Dict.

Context {V : Type}.
Implicit Types (d : Py.dict V) (k : string) (v : V).

Lemma keys_setitem d k v k' :
  In k' (Py.keys (Py.setitem d k v)) <-> k' = k \/ In k' (Py.keys d).
Proof.
  induction d as [|[k0 v0] d IH]; simpl.
  - intuition congruence.
  - destruct (String.eqb_spec k0 k) as [->|Hne]; simpl.
    + intuition congruence.
    + rewrite IH. intuition congruence.
Qed.

Lemma setitem_NoDup d k v :
  NoDup (Py.keys d) -> NoDup (Py.keys (Py.setitem d k v)).
Proof.
  induction d as [|[k0 v0] d IH]; simpl; intros Hnd.
  - constructor; [intros [] | constructor].
  - destruct (String.eqb_spec k0 k) as [->|Hne]; simpl.
    + exact Hnd.
    + inversion Hnd as [|? ? Hnotin Hnd']; subst.
      constructor; [|now apply IH].
      intros Hin. apply keys_setitem in Hin as [->|Hin]; tauto.
Qed.

Lemma In_setitem d k v k' v' :
  In (k', v') (Py.setitem d k v) -> (k' = k /\ v' = v) \/ In (k', v') d.
Proof.
  induction d as [|[k0 v0] d IH]; simpl.
  - intros [H|[]]. left. now inversion H.
  - destruct (String.eqb_spec k0 k) as [->|Hne]; simpl.
    + intros [H|H]; [left; now inversion H | right; now right].
    + intros [H|H]; [right; now left|].
      destruct (IH H) as [?|?]; [now left | right; now right].
Qed.

Lemma get_setitem_same d k v : Py.get (Py.setitem d k v) k = Some v.
Proof.
  induction d as [|[k0 v0] d IH]; simpl.
  - now rewrite String.eqb_refl.
  - destruct (String.eqb_spec k0 k) as [->|Hne]; simpl.
    + now rewrite String.eqb_refl.
    + destruct (String.eqb_spec k0 k); [contradiction | exact IH].
Qed.

Lemma get_setitem_other d k v k' :
  k' <> k -> Py.get (Py.setitem d k v) k' = Py.get d k'.
Proof.
  intros Hne. induction d as [|[k0 v0] d IH]; simpl.
  - destruct (String.eqb_spec k k'); [congruence | reflexivity].
  - destruct (String.eqb_spec k0 k) as [->|Hne0]; simpl.
    + destruct (String.eqb_spec k k'); [congruence | reflexivity].
    + destruct (String.eqb_spec k0 k'); [reflexivity | exact IH].
Qed.

Lemma get_In d k v : Py.get d k = Some v -> In (k, v) d.
Proof.
  induction d as [|[k0 v0] d IH]; simpl; [discriminate|].
  destruct (String.eqb_spec k0 k) as [->|Hne].
  - intros H. left. congruence.
  - intros H. right. now apply IH.
Qed.

Lemma In_get d k v : NoDup (Py.keys d) -> In (k, v) d -> Py.get d k = Some v.
Proof.
  induction d as [|[k0 v0] d IH]; simpl; [intros _ []|].
  intros Hnd [H|H].
  - inversion H; subst. now rewrite String.eqb_refl.
  - inversion Hnd as [|? ? Hnotin Hnd']; subst.
    destruct (String.eqb_spec k0 k) as [->|Hne].
    + exfalso. apply Hnotin. change k with (fst (k, v)). now apply in_map.
    + now apply IH.
Qed.

End Dict.

(** ** The stable descending sort *)

Section SortFacts.

Context {A : Type} (key : A -> Z).

Lemma insert_desc_perm (x : A) (l : list A) :
  Permutation (Py.insert_desc key x l) (x :: l).
Proof.
  induction l as [|y l IH]; simpl; [reflexivity|].
  destruct (key y <=? key x); [reflexivity|].
  rewrite IH. apply perm_swap.
Qed.

Lemma sort_desc_perm (l : list A) : Permutation (Py.sort_desc key l) l.
Proof.
  induction l as [|x l IH]; simpl; [reflexivity|].
  rewrite insert_desc_perm. now constructor.
Qed.

Lemma insert_desc_sorted (x : A) (l : list A) :
  StronglySorted (desc key) l -> StronglySorted (desc key) (Py.insert_desc key x l).
Proof.
  induction l as [|y l IH]; simpl; intros Hs.
  - constructor; constructor.
  - destruct (Z.leb_spec (key y) (key x)) as [Hle|Hgt].
    + constructor; [exact Hs|].
      inversion Hs as [|? ? _ Hall]; subst.
      constructor; [exact Hle|].
      eapply Forall_impl; [|exact Hall].
      unfold desc. intros; lia.
    + inversion Hs as [|? ? Hs' Hall]; subst.
      constructor; [now apply IH|].
      eapply Permutation_Forall.
      * symmetry. apply insert_desc_perm.
      * constructor; [unfold desc; lia | exact Hall].
Qed.

Lemma sort_desc_sorted (l : list A) :
  StronglySorted (desc key) (Py.sort_desc key l).
Proof.
  induction l as [|x l IH]; simpl; [constructor|].
  now apply insert_desc_sorted.
Qed.

Lemma insert_desc_stable (x : A) (l : list A) :
  stable key (Py.insert_desc key x l) (x :: l).
Proof.
  intros t. induction l as [|y l IH]; simpl; [reflexivity|].
  destruct (Z.leb_spec (key y) (key x)) as [Hle|Hgt]; [reflexivity|].
  simpl in *. rewrite IH.
  destruct (Z.eqb_spec (key x) t), (Z.eqb_spec (key y) t);
    try reflexivity; lia.
Qed.

Lemma sort_desc_stable (l : list A) : stable key (Py.sort_desc key l) l.
Proof.
  intros t. induction l as [|x l IH]; [reflexivity|].
  change (Py.sort_desc key (x :: l))
    with (Py.insert_desc key x (Py.sort_desc key l)).
  rewrite (insert_desc_stable x (Py.sort_desc key l) t).
  unfold with_key in *. cbn [filter]. now rewrite IH.
Qed.

Lemma with_key_In (t : Z) (x : A) (l : list A) :
  In x (with_key key t l) <-> In x l /\ key x = t.
Proof.
  unfold with_key. rewrite filter_In. now rewrite Z.eqb_eq.
Qed.

(** Two descending lists that give the same order to elements of equal
    key are the same list. *)
Lemma sorted_stable_unique (l1 : list A) :
  forall l2 : list A,
  StronglySorted (desc key) l1 -> StronglySorted (desc key) l2 ->
  stable key l1 l2 -> l1 = l2.
Proof.
  induction l1 as [|x l1 IH]; intros l2 Hs1 Hs2 Hst.
  - destruct l2 as [|y l2]; [reflexivity|].
    specialize (Hst (key y)). simpl in Hst.
    rewrite Z.eqb_refl in Hst. discriminate.
  - destruct l2 as [|y l2].
    + specialize (Hst (key x)). simpl in Hst.
      rewrite Z.eqb_refl in Hst. discriminate.
    + inversion Hs1 as [|? ? Hs1' Hall1]; subst.
      inversion Hs2 as [|? ? Hs2' Hall2]; subst.
      assert (Hxy : key x = key y).
      { assert (Hx : In x (y :: l2)).
        { apply (with_key_In (key x)). rewrite <- Hst.
          apply with_key_In. split; [now left | reflexivity]. }
        assert (Hy : In y (x :: l1)).
        { apply (with_key_In (key y)). rewrite Hst.
          apply with_key_In. split; [now left | reflexivity]. }
        rewrite Forall_forall in Hall1, Hall2. unfold desc in *.
        destruct Hx as [->|Hx]; [reflexivity|].
        destruct Hy as [->|Hy]; [reflexivity|].
        specialize (Hall1 _ Hy). specialize (Hall2 _ Hx). lia. }
      assert (Heq : x = y).
      { specialize (Hst (key x)). simpl in Hst.
        rewrite <- Hxy, Z.eqb_refl in Hst. congruence. }
      subst y. f_equal. apply IH; [assumption..|].
      intros t. specialize (Hst t). simpl in Hst.
      destruct (key x =? t); [congruence | exact Hst].
Qed.

(** Every stable descending sort of [l] returns [Py.sort_desc key l]. *)
Lemma sort_desc_unique (l out : list A) :
  StronglySorted (desc key) out -> stable key out l -> out = Py.sort_desc key l.
Proof.
  intros Hs Hst. apply sorted_stable_unique.
  - exact Hs.
  - apply sort_desc_sorted.
  - intros t. rewrite Hst. symmetry. apply sort_desc_stable.
Qed.

End SortFacts.

(** ** The catalog build *)

Section Catalog.

Lemma catalog_step_eq (files : Py.dict entry) (t : ls_item) :
  catalog_step files t =
  if accepted t then Py.setitem files (file_name (fst t)) (entry_of (fst t))
  else files.
Proof. reflexivity. Qed.

Lemma files_inv_step (seen : list ls_item) (files : Py.dict entry)
  (t : ls_item) :
  files_inv seen files -> files_inv (seen ++ [t]) (catalog_step files t).
Proof.
  intros [Hnd Hall]. rewrite catalog_step_eq.
  destruct (accepted t) eqn:Hacc.
  - split; [now apply setitem_NoDup|].
    intros k v Hin. apply In_setitem in Hin as [[-> ->]|Hin].
    + repeat split; [exact Hacc|].
      exists t. rewrite in_app_iff. simpl. auto.
    + destruct (Hall k v Hin) as (Hn & He & t0 & Ht0 & Hacc0 & Hv).
      repeat split; [assumption..|].
      exists t0. rewrite in_app_iff. auto.
  - split; [exact Hnd|].
    intros k v Hin.
    destruct (Hall k v Hin) as (Hn & He & t0 & Ht0 & Hacc0 & Hv).
    repeat split; [assumption..|].
    exists t0. rewrite in_app_iff. auto.
Qed.

Lemma files_inv_fold (l : list ls_item) :
  forall seen files,
  files_inv seen files ->
  files_inv (seen ++ l) (fold_left catalog_step l files).
Proof.
  induction l as [|t l IH]; intros seen files Hinv; simpl.
  - now rewrite app_nil_r.
  - replace (seen ++ t :: l)%list with ((seen ++ [t]) ++ l)%list
      by (rewrite <- app_assoc; reflexivity).
    apply IH. now apply files_inv_step.
Qed.

Lemma build_files_inv (l : list ls_item) : files_inv l (build_files l).
Proof.
  apply (files_inv_fold l [] []). split; [constructor | intros k v []].
Qed.

(** The loop keeps, for an accepted name, the record that arrived last. *)
Lemma get_fold_files (k : string) (l : list ls_item) :
  Py.endswith k ".pdf" = true ->
  forall files,
  Py.get (fold_left catalog_step l files) k =
  match last_named k l with
  | Some r => Some (entry_of r)
  | None => Py.get files k
  end.
Proof.
  intros Hk. induction l as [|t l IH]; intros files; simpl; [reflexivity|].
  rewrite IH. destruct (last_named k l) as [r|]; [reflexivity|].
  rewrite catalog_step_eq. unfold accepted.
  destruct (String.eqb_spec (file_name (fst t)) k) as [Heq|Hne].
  - rewrite Heq, Hk. apply get_setitem_same.
  - destruct (Py.endswith (file_name (fst t)) ".pdf"); [|reflexivity].
    apply get_setitem_other. congruence.
Qed.

Lemma get_build_files (k : string) (l : list ls_item) :
  Py.endswith k ".pdf" = true ->
  Py.get (build_files l) k = option_map entry_of (last_named k l).
Proof.
  intros Hk. unfold build_files. rewrite (get_fold_files k l Hk).
  now destruct (last_named k l).
Qed.

Lemma catalog_eq (l : list ls_item) :
  catalog l = sorted_file_list (build_files l).
Proof.
  unfold catalog. now destruct (build_files l).
Qed.

Lemma catalog_perm (l : list ls_item) :
  Permutation (catalog l) (Py.values (build_files l)).
Proof. rewrite catalog_eq. apply sort_desc_perm. Qed.

Lemma In_catalog (l : list ls_item) (e : entry) :
  In e (catalog l) <-> In (e_name e, e) (build_files l).
Proof.
  destruct (build_files_inv l) as [_ Hall]. split.
  - intros Hin. apply (Permutation_in _ (catalog_perm l)) in Hin.
    apply in_map_iff in Hin as [[k v] [Hv Hin]]. simpl in Hv. subst v.
    now destruct (Hall k e Hin) as [-> _].
  - intros Hin. apply (Permutation_in _ (Permutation_sym (catalog_perm l))).
    change e with (snd (e_name e, e)). now apply in_map.
Qed.

Lemma keys_are_names (l : list ls_item) :
  Py.keys (build_files l) = map e_name (Py.values (build_files l)).
Proof.
  destruct (build_files_inv l) as [_ Hall].
  unfold Py.keys, Py.values. rewrite map_map.
  apply map_ext_in. intros [k v] Hin. simpl.
  now destruct (Hall k v Hin) as [-> _].
Qed.

(** An entry of the catalog is the last-arrived record of its name. *)
Lemma catalog_keeps_last_arrival (l : list ls_item) (e : entry) :
  In e (catalog l) ->
  option_map entry_of (last_named (e_name e) l) = Some e.
Proof.
  intros Hin. apply In_catalog in Hin.
  destruct (build_files_inv l) as [Hnd Hall].
  destruct (Hall _ _ Hin) as (_ & Hk & _).
  rewrite <- (get_build_files _ l Hk). now apply In_get.
Qed.

Lemma last_named_In (k : string) (l : list ls_item) (r : FileVersion) :
  last_named k l = Some r -> file_name r = k /\ exists t, In t l /\ fst t = r.
Proof.
  induction l as [|t l IH]; simpl; [discriminate|].
  destruct (last_named k l) as [r'|].
  - intros [= <-]. destruct (IH eq_refl) as (Hn & t' & Hin & Heq).
    split; [exact Hn|]. exists t'. auto.
  - destruct (String.eqb_spec (file_name (fst t)) k) as [Hk|_];
      [|discriminate].
    intros [= <-]. split; [exact Hk|]. exists t. auto.
Qed.

Lemma last_named_None (k : string) (l : list ls_item) :
  last_named k l = None -> forall t, In t l -> file_name (fst t) <> k.
Proof.
  induction l as [|t l IH]; simpl; [intros _ t []|].
  destruct (last_named k l) as [r'|]; [discriminate|].
  destruct (String.eqb_spec (file_name (fst t)) k) as [|Hne]; [discriminate|].
  intros _ t' [<-|Hin]; [exact Hne | now apply IH].
Qed.

(** Among records that arrive oldest first, the last of a name is the
    newest of that name. *)
Lemma last_named_newest (k : string) (l : list ls_item) (r : FileVersion) :
  ForallOrdPairs older_first l -> last_named k l = Some r ->
  forall t, In t l -> file_name (fst t) = k ->
  upload_timestamp (fst t) <= upload_timestamp r.
Proof.
  induction l as [|t0 l IH]; intros Hord Hlast t Hin Hname; [destruct Hin|].
  inversion_clear Hord as [|? ? Hhead Htail].
  simpl in Hlast. destruct (last_named k l) as [r'|] eqn:Hl.
  - injection Hlast as ->.
    destruct Hin as [<-|Hin]; [|now apply IH].
    destruct (last_named_In _ _ _ Hl) as (Hn & t' & Hin' & <-).
    rewrite Forall_forall in Hhead. apply (Hhead t' Hin'). congruence.
  - destruct (String.eqb (file_name (fst t0)) k); [|discriminate].
    injection Hlast as <-.
    destruct Hin as [<-|Hin]; [lia|].
    now destruct (last_named_None _ _ Hl t Hin).
Qed.


End Catalog.

(** ** Claims about the catalog *)





(** C2: the catalog has at most one entry per file name: the names of its
    entries are pairwise distinct. *)
Theorem C2_one_entry_per_name (l : list ls_item) :
  NoDup (map e_name (catalog l)).
Proof.
  apply (Permutation_NoDup (l := map e_name (Py.values (build_files l)))).
  - apply Permutation_map. symmetry. apply catalog_perm.
  - rewrite <- keys_are_names. apply build_files_inv.
Qed.

(** C3: the catalog is sorted by descending upload timestamp; entries
    with equal timestamps keep the order in which their names first
    entered [files]; that order is the only one a stable descending sort
    can return, so every run on the same listing returns the same list. *)
Theorem C3_sorted_stable_deterministic (l : list ls_item) :
  StronglySorted (desc e_upload_timestamp) (catalog l) /\
  stable e_upload_timestamp (catalog l) (Py.values (build_files l)) /\
  (forall out : list entry,
     StronglySorted (desc e_upload_timestamp) out ->
     stable e_upload_timestamp out (Py.values (build_files l)) ->
     out = catalog l) /\
  (forall l' : list ls_item, l' = l -> catalog l' = catalog l).
Proof.
  rewrite catalog_eq. unfold sorted_file_list. repeat split.
  - apply sort_desc_sorted.
  - apply sort_desc_stable.
  - intros out Hs Hst. now apply sort_desc_unique.
  - intros l' ->. apply catalog_eq.
Qed.

Lemma C3_witness :
  [ mkEntry "id-c" "c.pdf" 1024 300;
    mkEntry "id-b" "b.pdf" 2048 100;
    mkEntry "id-a" "a.pdf" 128 100 ] = catalog tied_listing.
Proof.
  apply (proj1 (proj2 (proj2 (C3_sorted_stable_deterministic tied_listing)))).
  - repeat constructor; unfold desc; simpl; lia.
  - intros t. unfold with_key.
    change (Py.values (build_files tied_listing))
      with [ mkEntry "id-b" "b.pdf" 2048 100;
             mkEntry "id-c" "c.pdf" 1024 300;
             mkEntry "id-a" "a.pdf" 128 100 ].
    cbn [filter e_upload_timestamp].
    destruct (Z.eqb_spec 300 t), (Z.eqb_spec 100 t); try reflexivity; lia.
Defined.

Lemma catalog_names_pdf (l : list ls_item) (e : entry) :
  In e (catalog l) -> Py.endswith (e_name e) ".pdf" = true.
Proof.
  intros Hin. apply In_catalog in Hin.
  destruct (build_files_inv l) as [_ Hall].
  now destruct (Hall _ _ Hin) as (_ & Hk & _).
Qed.

Lemma rejected_name_absent (l : list ls_item) (t : ls_item) :
  Py.endswith (file_name (fst t)) ".pdf" = false ->
  ~ In (entry_of (fst t)) (catalog l) /\
  ~ In (file_name (fst t)) (map e_name (catalog l)).
Proof.
  intros Hno. split.
  - intros Hin. apply catalog_names_pdf in Hin. simpl in Hin. congruence.
  - intros Hin. apply in_map_iff in Hin as [e [Hname Hin]].
    apply catalog_names_pdf in Hin. congruence.
Qed.

(** C4: every entry of the catalog comes from a listed record whose name
    ends in ".pdf", so its own name is some prefix followed by ".pdf";
    and no entry carries the name of a listed record that fails the test. *)
Theorem C4_only_pdf_names (l : list ls_item) :
  (forall e, In e (catalog l) ->
     Py.endswith (e_name e) ".pdf" = true /\
     (exists p, e_name e = p ++ ".pdf") /\
     (exists t, In t l /\ e = entry_of (fst t))) /\
  (forall t, In t l -> Py.endswith (file_name (fst t)) ".pdf" = false ->
     ~ In (entry_of (fst t)) (catalog l) /\
     ~ In (file_name (fst t)) (map e_name (catalog l))).
Proof.
  split.
  - intros e Hin. split; [now apply (catalog_names_pdf l)|]. split.
    + apply endswith_iff. now apply (catalog_names_pdf l).
    + apply In_catalog in Hin.
      destruct (build_files_inv l) as [_ Hall].
      destruct (Hall _ _ Hin) as (_ & _ & t & Ht & _ & Hv). now exists t.
  - intros t _ Hno. now apply (rejected_name_absent l).
Qed.

Lemma C4_witness :
  (Py.endswith (e_name entry_c) ".pdf" = true /\
   (exists p, e_name entry_c = p ++ ".pdf") /\
   (exists t, In t tied_listing /\ entry_c = entry_of (fst t))) /\
  (~ In (entry_of (mkFileVersion "id-n" "notes.txt" 12 5))
        (catalog no_pdf_listing) /\
   ~ In "notes.txt" (map e_name (catalog no_pdf_listing))).
Proof.
  split.
  - apply (proj1 (C4_only_pdf_names tied_listing) entry_c).
    simpl. left. reflexivity.
  - apply (proj2 (C4_only_pdf_names no_pdf_listing)
             (mkFileVersion "id-n" "notes.txt" 12 5, None)).
    + simpl. left. reflexivity.
    + reflexivity.
Defined.

(** C6: the scenario of the specification, for any identifiers, sizes and
    folder fields of the three records. *)
Theorem C6_scenario (i1 i2 i3 : string) (s1 s2 s3 : Z)
  (f1 f2 f3 : option string) :
  catalog [ (mkFileVersion i1 "a.pdf" s1 100, f1);
            (mkFileVersion i2 "a.pdf" s2 200, f2);
            (mkFileVersion i3 "b.pdf" s3 150, f3) ]
  = [ mkEntry i2 "a.pdf" s2 200; mkEntry i3 "b.pdf" s3 150 ].
Proof. reflexivity. Qed.

Lemma lower_length (s : string) : String.length (lower s) = String.length s.
Proof. induction s as [|c s IH]; simpl; [reflexivity | now rewrite IH]. Qed.

(** C10: the test is case-sensitive.  A listed record whose name ends in
    a variant of ".pdf" that differs from it only by letter case (".PDF",
    ".Pdf", ...) is left out of the catalog. *)
Theorem C10_case_sensitive (l : list ls_item) (t : ls_item)
  (variant : string) :
  In t l ->
  lower variant = ".pdf" -> variant <> ".pdf" ->
  Py.endswith (file_name (fst t)) variant = true ->
  Py.endswith (file_name (fst t)) ".pdf" = false /\
  ~ In (entry_of (fst t)) (catalog l) /\
  ~ In (file_name (fst t)) (map e_name (catalog l)).
Proof.
  intros Hin Hlow Hne Hends.
  assert (Hno : Py.endswith (file_name (fst t)) ".pdf" = false).
  { destruct (Py.endswith (file_name (fst t)) ".pdf") eqn:Hpdf;
      [|reflexivity].
    exfalso. apply Hne.
    apply (endswith_same_length (file_name (fst t))); try assumption.
    rewrite <- (lower_length variant), Hlow. reflexivity. }
  split; [exact Hno|].
  now apply (rejected_name_absent l).
Qed.

Lemma C10_witness :
  Py.endswith "SCAN.PDF" ".pdf" = false /\
  ~ In (entry_of (mkFileVersion "id-p" "SCAN.PDF" 99 7))
       (catalog no_pdf_listing) /\
  ~ In "SCAN.PDF" (map e_name (catalog no_pdf_listing)).
Proof.
  apply (C10_case_sensitive no_pdf_listing
           (mkFileVersion "id-p" "SCAN.PDF" 99 7, None) ".PDF").
  - simpl. right. left. reflexivity.
  - reflexivity.
  - discriminate.
  - reflexivity.
Defined.

(** ** Effects: what a computation adds to the log *)

Section Effects.

Context {A B : Type} (P : event -> Prop).

Lemma emitted_eq (m : M A) (w : world) (evs : list event) :
  log (snd (m w)) = (log w ++ evs)%list -> emitted m w = evs.
Proof.
  intros H. unfold emitted. rewrite H, skipn_app, skipn_all, Nat.sub_diag.
  reflexivity.
Qed.

Lemma emits_silent (m : M A) :
  (forall w, log (snd (m w)) = log w) -> emits P m.
Proof.
  intros H w. exists []. rewrite H, app_nil_r. split; [reflexivity|constructor].
Qed.

Lemma emits_ret (a : A) : emits P (ret a).
Proof. now apply emits_silent. Qed.

Lemma emits_raise (e : exn) : emits P (@raise A e).
Proof. now apply emits_silent. Qed.

Lemma emits_answer (e : event) (r : exn + A) : P e -> emits P (answer e r).
Proof.
  intros He w. exists [e].
  split; [now destruct r | now constructor].
Qed.

Lemma emits_bind (m : M A) (k : A -> M B) :
  emits P m -> (forall a, emits P (k a)) -> emits P (bind m k).
Proof.
  intros Hm Hk w. unfold bind.
  destruct (Hm w) as (evs & Hlog & Hall).
  destruct (m w) as [[a|e] w']; simpl in *.
  - destruct (Hk a w') as (evs' & Hlog' & Hall').
    exists (evs ++ evs')%list. rewrite Hlog', Hlog, app_assoc.
    split; [reflexivity | now apply Forall_app].
  - now exists evs.
Qed.

Lemma emits_try (body : M A) (handler : exn -> M A) :
  emits P body -> (forall e, emits P (handler e)) ->
  emits P (try_except body handler).
Proof.
  intros Hm Hk w. unfold try_except.
  destruct (Hm w) as (evs & Hlog & Hall).
  destruct (body w) as [[a|e] w']; simpl in *.
  - now exists evs.
  - destruct (Hk e w') as (evs' & Hlog' & Hall').
    exists (evs ++ evs')%list. rewrite Hlog', Hlog, app_assoc.
    split; [reflexivity | now apply Forall_app].
Qed.

Lemma oblivious_ret (a : A) : oblivious (ret a).
Proof. intros w u. reflexivity. Qed.

Lemma oblivious_raise (e : exn) : oblivious (@raise A e).
Proof. intros w u. reflexivity. Qed.

Lemma oblivious_answer (e : event) (r : exn + A) : oblivious (answer e r).
Proof. intros w u. now destruct r. Qed.

Lemma oblivious_bind (m : M A) (k : A -> M B) :
  oblivious m -> (forall a, oblivious (k a)) -> oblivious (bind m k).
Proof.
  intros Hm Hk w u. unfold bind. rewrite Hm.
  destruct (m w) as [[a|e] w']; simpl; [apply Hk | reflexivity].
Qed.

Lemma oblivious_try (body : M A) (handler : exn -> M A) :
  oblivious body -> (forall e, oblivious (handler e)) ->
  oblivious (try_except body handler).
Proof.
  intros Hm Hk w u. unfold try_except. rewrite Hm.
  destruct (body w) as [[a|e] w']; simpl; [reflexivity | apply Hk].
Qed.

End Effects.

Lemma emits_show (P : event -> Prop) (e : event) : P e -> emits P (show e).
Proof.
  intros He w. exists [e]. split; [reflexivity | now constructor].
Qed.

Lemma oblivious_show (e : event) : oblivious (show e).
Proof. intros w u. reflexivity. Qed.

Section AppEffects.

Variables (os : OS) (initialize_b2_answer : exn + Bucket) (user : User).

Lemma initialize_b2_log (w : world) :
  log (snd (initialize_b2 initialize_b2_answer w)) = log w.
Proof. unfold initialize_b2. now destruct initialize_b2_answer. Qed.

Lemma save_to_log (d : DownloadedFile) (path : string) (w : world) :
  log (snd (save_to os d path w)) = log w.
Proof.
  unfold save_to.
  destruct (open_wb_raises os path); [reflexivity|].
  now destruct (save_raises d).
Qed.

Lemma read_from_log (path : string) (w : world) :
  log (snd (read_from os path w)) = log w.
Proof.
  unfold read_from.
  destruct (open_rb_raises os path); [reflexivity|].
  destruct (fs w path); [|reflexivity].
  now destruct (read_raises os path).
Qed.

Lemma os_path_exists_log (path : string) (w : world) :
  log (snd (os_path_exists path w)) = log w.
Proof. unfold os_path_exists. now destruct (fs w path). Qed.

Lemma os_remove_log (path : string) (w : world) :
  log (snd (os_remove os path w)) = log w.
Proof.
  unfold os_remove.
  destruct (remove_raises os path); [reflexivity|].
  now destruct (fs w path).
Qed.

Lemma oblivious_initialize_b2 :
  oblivious (initialize_b2 initialize_b2_answer).
Proof. intros w u. unfold initialize_b2. now destruct initialize_b2_answer. Qed.

Lemma oblivious_save_to (d : DownloadedFile) (path : string) :
  oblivious (save_to os d path).
Proof.
  intros w u. unfold save_to.
  destruct (open_wb_raises os path); [reflexivity|].
  now destruct (save_raises d).
Qed.

Lemma oblivious_read_from (path : string) : oblivious (read_from os path).
Proof.
  intros w u. unfold read_from. simpl.
  destruct (open_rb_raises os path); [reflexivity|].
  destruct (fs w path); [|reflexivity].
  now destruct (read_raises os path).
Qed.

Lemma oblivious_os_path_exists (path : string) :
  oblivious (os_path_exists path).
Proof. intros w u. unfold os_path_exists. simpl. now destruct (fs w path). Qed.

Lemma oblivious_os_remove (path : string) : oblivious (os_remove os path).
Proof.
  intros w u. unfold os_remove. simpl.
  destruct (remove_raises os path); [reflexivity|].
  now destruct (fs w path).
Qed.

Lemma tempfile_gettempdir_log (w : world) :
  log (snd (tempfile_gettempdir os w)) = log w.
Proof. unfold tempfile_gettempdir. now destruct (gettempdir_raises os). Qed.

Lemma oblivious_tempfile_gettempdir : oblivious (tempfile_gettempdir os).
Proof.
  intros w u. unfold tempfile_gettempdir.
  now destruct (gettempdir_raises os).
Qed.

Lemma oblivious_selectbox (label : string) (options : list string) :
  oblivious (selectbox user label options).
Proof. intros w u. reflexivity. Qed.

End AppEffects.

Ltac effects_step :=
  match goal with
  | |- emits _ (bind _ _) => apply emits_bind; [|intros ?]
  | |- emits _ (try_except _ _) => apply emits_try; [|intros ?]
  | |- emits _ (ret _) => apply emits_ret
  | |- emits _ (raise _) => apply emits_raise
  | |- emits _ (show _) => apply emits_show
  | |- emits _ (answer _ _) => apply emits_answer
  | |- emits _ (initialize_b2 _) => apply emits_silent, initialize_b2_log
  | |- emits _ (save_to _ _ _) => apply emits_silent, save_to_log
  | |- emits _ (read_from _ _) => apply emits_silent, read_from_log
  | |- emits _ (os_path_exists _) => apply emits_silent, os_path_exists_log
  | |- emits _ (os_remove _ _) => apply emits_silent, os_remove_log
  | |- emits _ (tempfile_gettempdir _) =>
      apply emits_silent, tempfile_gettempdir_log
  | |- oblivious (bind _ _) => apply oblivious_bind; [|intros ?]
  | |- oblivious (try_except _ _) => apply oblivious_try; [|intros ?]
  | |- oblivious (ret _) => apply oblivious_ret
  | |- oblivious (raise _) => apply oblivious_raise
  | |- oblivious (show _) => apply oblivious_show
  | |- oblivious (answer _ _) => apply oblivious_answer
  | |- oblivious (initialize_b2 _) => apply oblivious_initialize_b2
  | |- oblivious (save_to _ _ _) => apply oblivious_save_to
  | |- oblivious (read_from _ _) => apply oblivious_read_from
  | |- oblivious (os_path_exists _) => apply oblivious_os_path_exists
  | |- oblivious (os_remove _ _) => apply oblivious_os_remove
  | |- oblivious (tempfile_gettempdir _) =>
      apply oblivious_tempfile_gettempdir
  | |- oblivious (selectbox _ _ _) => apply oblivious_selectbox
  | |- emits _ (if ?b then _ else _) => destruct b
  | |- oblivious (if ?b then _ else _) => destruct b
  | |- emits _ (match ?x with _ => _ end) => destruct x
  | |- oblivious (match ?x with _ => _ end) => destruct x
  end.

Ltac effects := repeat effects_step; try (simpl; tauto).

Section Handlers.

Variables (os : OS) (user : User).

Lemma download_file_from_b2_quiet (bucket : Bucket) (file_id name : string) :
  emits not_selectbox (download_file_from_b2 os bucket file_id name).
Proof. unfold download_file_from_b2, download_try, not_selectbox. effects. Qed.

Lemma get_signed_url_quiet (bucket : Bucket) (name : string) (d : Z) :
  emits not_selectbox (get_signed_url bucket name d).
Proof. unfold get_signed_url, not_selectbox. effects. Qed.

Lemma visualizar_pdf_quiet (bucket : Bucket) (selected_file : entry) :
  emits not_selectbox (visualizar_pdf os bucket selected_file).
Proof.
  unfold visualizar_pdf. effects;
    try apply get_signed_url_quiet; try apply download_file_from_b2_quiet;
    unfold not_selectbox; simpl; tauto.
Qed.

Lemma download_pdf_quiet (bucket : Bucket) (selected_file : entry) :
  emits not_selectbox (download_pdf os bucket selected_file).
Proof.
  unfold download_pdf. effects;
    try apply download_file_from_b2_quiet; unfold not_selectbox; simpl; tauto.
Qed.

Lemma tab2_selected_quiet (bucket : Bucket) (file_list : list entry)
  (options : list string) (selected_filename : option string) :
  emits not_selectbox (tab2_selected os user bucket file_list options
                 selected_filename).
Proof.
  unfold tab2_selected, index_of, getitem, button. effects;
    try apply visualizar_pdf_quiet; try apply download_pdf_quiet;
    unfold not_selectbox; simpl; tauto.
Qed.

Lemma download_file_from_b2_oblivious (bucket : Bucket)
  (file_id name : string) :
  oblivious (download_file_from_b2 os bucket file_id name).
Proof. unfold download_file_from_b2, download_try. effects. Qed.

Lemma get_signed_url_oblivious (bucket : Bucket) (name : string) (d : Z) :
  oblivious (get_signed_url bucket name d).
Proof. unfold get_signed_url. effects. Qed.

Lemma visualizar_pdf_oblivious (bucket : Bucket) (selected_file : entry) :
  oblivious (visualizar_pdf os bucket selected_file).
Proof.
  unfold visualizar_pdf. effects;
    first [apply get_signed_url_oblivious
          | apply download_file_from_b2_oblivious].
Qed.

Lemma download_pdf_oblivious (bucket : Bucket) (selected_file : entry) :
  oblivious (download_pdf os bucket selected_file).
Proof.
  unfold download_pdf. effects. apply download_file_from_b2_oblivious.
Qed.

Lemma tab2_selected_oblivious (bucket : Bucket) (file_list : list entry)
  (options : list string) (selected_filename : option string) :
  oblivious (tab2_selected os user bucket file_list options
               selected_filename).
Proof.
  unfold tab2_selected, index_of, getitem, button. effects;
    first [apply visualizar_pdf_oblivious | apply download_pdf_oblivious].
Qed.

Lemma tab2_oblivious (initialize_b2_answer : exn + Bucket) :
  oblivious (tab2 os initialize_b2_answer user).
Proof.
  unfold tab2. effects. apply tab2_selected_oblivious.
Qed.

End Handlers.

(** ** Claims about the browse view *)

Section Browse.

Variables (os : OS) (user : User).

Lemma fold_none_accepted (l : list ls_item) :
  (forall t, In t l -> accepted t = false) ->
  forall files, fold_left catalog_step l files = files.
Proof.
  induction l as [|t l IH]; intros Hall files; simpl; [reflexivity|].
  rewrite catalog_step_eq, (Hall t (or_introl eq_refl)).
  apply IH. intros t' Ht'. apply Hall. now right.
Qed.

Lemma build_files_none (l : list ls_item) :
  (forall t, In t l -> accepted t = false) -> build_files l = [].
Proof. intros Hall. now apply fold_none_accepted. Qed.

Lemma tab2_no_files (bucket : Bucket) (l : list ls_item) (w : world) :
  ls bucket = inr l -> build_files l = [] ->
  tab2 os (inr bucket) user w =
  (Ok tt,
   emit (st_info "Nenhum arquivo PDF encontrado no bucket.")
     (emit call_ls (emit (st_header "Visualizar/Download de PDFs") w))).
Proof.
  intros Hls Hnone.
  unfold tab2, bind, try_except, show, initialize_b2, answer.
  rewrite Hls, Hnone. reflexivity.
Qed.

(** A listing that fails is reported as an error, unlike an empty one. *)
Lemma tab2_listing_fails (bucket : Bucket) (e : exn) (w : world) :
  ls bucket = inl e ->
  tab2 os (inr bucket) user w =
  (Ok tt,
   emit (st_error ("Erro ao listar arquivos: " ++ e))
     (emit call_ls (emit (st_header "Visualizar/Download de PDFs") w))).
Proof.
  intros Hls.
  unfold tab2, bind, try_except, show, initialize_b2, answer.
  rewrite Hls. reflexivity.
Qed.

Lemma tab2_some_files (bucket : Bucket) (l : list ls_item) (w : world) :
  ls bucket = inr l -> Py.nonempty (build_files l) = true ->
  let file_list := sorted_file_list (build_files l) in
  let options := map (option_label os) file_list in
  let w3 := emit (st_selectbox "Selecione um arquivo PDF" options 0)
              (emit call_ls
                 (emit (st_header "Visualizar/Download de PDFs") w)) in
  tab2 os (inr bucket) user w =
  match tab2_selected os user bucket file_list options
          (nth_error options (selected_option user)) w3 with
  | (Ok a, w') => (Ok a, w')
  | (Raise e, w') =>
      (Ok tt, emit (st_error ("Erro ao listar arquivos: " ++ e)) w')
  end.
Proof.
  intros Hls Hfiles.
  unfold tab2, bind, try_except, show, initialize_b2, answer, selectbox.
  rewrite Hls, Hfiles. reflexivity.
Qed.

(** With a non-empty catalog the view calls [ls] once and shows the select
    box with the labels of the catalog, in the order of the catalog; no
    other select box follows. *)
Lemma tab2_shows_catalog (bucket : Bucket) (l : list ls_item) (w : world) :
  ls bucket = inr l -> catalog l <> [] ->
  exists evs,
    emitted (tab2 os (inr bucket) user) w =
    ([ st_header "Visualizar/Download de PDFs";
       call_ls;
       st_selectbox "Selecione um arquivo PDF"
         (map (option_label os) (catalog l)) 0 ] ++ evs)%list /\
    Forall not_selectbox evs.
Proof.
  intros Hls Hne.
  assert (Hfiles : Py.nonempty (build_files l) = true).
  { unfold catalog in Hne. destruct (build_files l); [contradiction|].
    reflexivity. }
  rewrite (catalog_eq l).
  pose proof (tab2_some_files bucket l w Hls Hfiles) as Hrun.
  cbv zeta in Hrun.
  set (file_list := sorted_file_list (build_files l)) in *.
  set (options := map (option_label os) file_list) in *.
  set (w3 := emit _ _) in Hrun.
  destruct (tab2_selected_quiet os user bucket file_list options
              (nth_error options (selected_option user)) w3)
    as (evs & Hlog & Hquiet).
  destruct (tab2_selected os user bucket file_list options _ w3)
    as [[[]|e] w4]; simpl in Hlog.
  - exists evs. split; [|exact Hquiet].
    apply emitted_eq. rewrite Hrun. simpl. rewrite Hlog.
    now rewrite <- !app_assoc.
  - exists (evs ++ [st_error ("Erro ao listar arquivos: " ++ e)])%list. split.
    + apply emitted_eq. rewrite Hrun. simpl. rewrite Hlog.
      now rewrite <- !app_assoc.
    + apply Forall_app. split; [exact Hquiet|].
      constructor; [|constructor]. unfold not_selectbox. simpl. tauto.
Qed.

(** A successful upload appends one record to the session's list, which
    is created when missing. *)
Lemma tab1_remembers_upload (bucket : Bucket) (name : string)
  (value : list byte) (file_info : FileVersion) (w : world) :
  uploaded_file user = Some (name, value) ->
  click_enviar user = true ->
  upload_bytes bucket value name "application/pdf" = inr file_info ->
  uploaded_files (snd (tab1 os (inr bucket) user w)) =
  Some (match uploaded_files w with
        | Some l => l
        | None => []
        end ++
        [ {| u_name := name;
             u_id := id_ file_info;
             u_size := Z.of_nat (List.length value);
             u_timestamp := time_time os |} ])%list.
Proof.
  intros Hfile Hclick Hup.
  unfold tab1, button, try_except, bind, show, initialize_b2, answer,
    remember_upload.
  rewrite Hfile, Hclick, Hup. reflexivity.
Qed.

End Browse.

(** C5: when the listing is empty, or holds no record whose name ends in
    ".pdf", the catalog is empty and the view finishes normally: it shows
    the notice that no PDF was found, and no error message. *)
Theorem C5_empty_catalog_is_not_an_error (os : OS) (user : User)
  (bucket : Bucket) (l : list ls_item) (w : world) :
  ls bucket = inr l ->
  (l = [] \/
   forall t, In t l -> Py.endswith (file_name (fst t)) ".pdf" = false) ->
  catalog l = [] /\
  tab2 os (inr bucket) user w =
    (Ok tt,
     emit (st_info "Nenhum arquivo PDF encontrado no bucket.")
       (emit call_ls (emit (st_header "Visualizar/Download de PDFs") w))) /\
  existsb is_error (emitted (tab2 os (inr bucket) user) w) = false.
Proof.
  intros Hls Hl.
  assert (Hnone : build_files l = []).
  { destruct Hl as [->|Hall]; [reflexivity | now apply build_files_none]. }
  assert (Hrun := tab2_no_files os user bucket l w Hls Hnone).
  split; [|split].
  - unfold catalog. now rewrite Hnone.
  - exact Hrun.
  - erewrite emitted_eq; [|rewrite Hrun; simpl; rewrite <- !app_assoc;
                            reflexivity].
    reflexivity.
Qed.

Lemma C5_witness :
  catalog no_pdf_listing = [] /\
  tab2 sample_os
    (inr (sample_bucket no_pdf_listing (inl "refused") (inl "gone")))
    sample_user empty_world =
    (Ok tt,
     emit (st_info "Nenhum arquivo PDF encontrado no bucket.")
       (emit call_ls
          (emit (st_header "Visualizar/Download de PDFs") empty_world))) /\
  existsb is_error
    (emitted
       (tab2 sample_os
          (inr (sample_bucket no_pdf_listing (inl "refused") (inl "gone")))
          sample_user) empty_world) = false.
Proof.
  apply (C5_empty_catalog_is_not_an_error sample_os sample_user
           (sample_bucket no_pdf_listing (inl "refused") (inl "gone"))
           no_pdf_listing empty_world).
  - reflexivity.
  - right. intros t [<-|[<-|[]]]; reflexivity.
Defined.

(** C9: the browse view neither reads nor writes the session's upload
    list.  Started from two worlds that differ only in that list, it
    returns the same result, logs the same widgets and SDK calls, leaves
    the same files and leaves each upload list as it was; and for a
    listing [l] with a non-empty catalog both runs show the select box of
    [catalog l], which is computed from [l] alone. *)
Theorem C9_catalog_ignores_session (os : OS) (user : User)
  (initialize_b2_answer : exn + Bucket) (w : world)
  (u1 u2 : option (list upload_record)) :
  let run1 := tab2 os initialize_b2_answer user (set_uploaded_files u1 w) in
  let run2 := tab2 os initialize_b2_answer user (set_uploaded_files u2 w) in
  fst run1 = fst run2 /\
  log (snd run1) = log (snd run2) /\
  fs (snd run1) = fs (snd run2) /\
  uploaded_files (snd run1) = u1 /\
  uploaded_files (snd run2) = u2 /\
  (forall bucket l,
     initialize_b2_answer = inr bucket -> ls bucket = inr l ->
     catalog l <> [] ->
     exists evs,
       emitted (tab2 os initialize_b2_answer user)
         (set_uploaded_files u1 w) =
       ([ st_header "Visualizar/Download de PDFs";
          call_ls;
          st_selectbox "Selecione um arquivo PDF"
            (map (option_label os) (catalog l)) 0 ] ++ evs)%list /\
       emitted (tab2 os initialize_b2_answer user)
         (set_uploaded_files u2 w) =
       ([ st_header "Visualizar/Download de PDFs";
          call_ls;
          st_selectbox "Selecione um arquivo PDF"
            (map (option_label os) (catalog l)) 0 ] ++ evs)%list /\
       Forall not_selectbox evs).
Proof.
  intros run1 run2. subst run1 run2.
  rewrite !(tab2_oblivious os user initialize_b2_answer w).
  simpl. repeat split.
  intros bucket l -> Hls Hne.
  destruct (tab2_shows_catalog os user bucket l w Hls Hne)
    as (evs & Hev & Hquiet).
  exists evs. unfold emitted in *.
  rewrite !(tab2_oblivious os user (inr bucket) w). simpl.
  now rewrite Hev.
Qed.

Lemma C9_witness :
  exists evs,
    emitted
      (tab2 sample_os
         (inr (sample_bucket tied_listing (inl "refused") (inl "gone")))
         sample_user)
      (set_uploaded_files None empty_world) =
    ([ st_header "Visualizar/Download de PDFs";
       call_ls;
       st_selectbox "Selecione um arquivo PDF"
         (map (option_label sample_os) (catalog tied_listing)) 0 ]
       ++ evs)%list /\
    emitted
      (tab2 sample_os
         (inr (sample_bucket tied_listing (inl "refused") (inl "gone")))
         sample_user)
      (set_uploaded_files
         (Some [mkUpload "z.pdf" "id-z" 4 1762128000%float]) empty_world) =
    ([ st_header "Visualizar/Download de PDFs";
       call_ls;
       st_selectbox "Selecione um arquivo PDF"
         (map (option_label sample_os) (catalog tied_listing)) 0 ]
       ++ evs)%list /\
    Forall not_selectbox evs.
Proof.
  apply (proj2 (proj2 (proj2 (proj2 (proj2
           (C9_catalog_ignores_session sample_os sample_user
              (inr (sample_bucket tied_listing (inl "refused") (inl "gone")))
              empty_world None
              (Some [mkUpload "z.pdf" "id-z" 4 1762128000%float]))))))
           (sample_bucket tied_listing (inl "refused") (inl "gone"))
           tied_listing).
  - reflexivity.
  - reflexivity.
  - discriminate.
Defined.

(** ** Claims about the view and download handlers *)

Section View.

Variable os : OS.

Lemma log_emit_all (evs : list event) :
  forall w, log (emit_all evs w) = (log w ++ evs)%list.
Proof.
  induction evs as [|e evs IH]; intros w; simpl.
  - now rewrite app_nil_r.
  - unfold emit_all in IH. rewrite IH. simpl. now rewrite <- app_assoc.
Qed.

Lemma truthy_app (a b : string) :
  Py.truthy b = true -> Py.truthy (a ++ b) = true.
Proof. now destruct a. Qed.

(** When both SDK calls answer, [get_signed_url] returns a non-empty
    string, which Python takes as true. *)
Lemma get_signed_url_ok (bucket : Bucket) (name : string) (d : Z)
  (w : world) :
  sign_failure bucket name d = None ->
  exists url,
    get_signed_url bucket name d w =
      (Ok (Some url), emit_all (sign_calls bucket name d) w) /\
    Py.truthy url = true.
Proof.
  unfold sign_failure, sign_calls, get_signed_url, try_except, bind, answer.
  destruct (get_download_authorization bucket name d) as [e|token];
    [discriminate|].
  destruct (get_download_url bucket name) as [e|base_url]; [discriminate|].
  intros _. eexists. split; [reflexivity|]. now apply truthy_app.
Qed.

(** When one of them raises, it shows the error and returns [None]. *)
Lemma get_signed_url_fails (bucket : Bucket) (name : string) (d : Z)
  (e : exn) (w : world) :
  sign_failure bucket name d = Some e ->
  get_signed_url bucket name d w =
  (Ok None,
   emit (st_error ("Erro ao gerar URL assinada: " ++ e))
     (emit_all (sign_calls bucket name d) w)).
Proof.
  unfold sign_failure, sign_calls, get_signed_url, try_except, bind, answer,
    show, ret.
  destruct (get_download_authorization bucket name d) as [e0|token].
  - intros [= ->]. reflexivity.
  - destruct (get_download_url bucket name) as [e0|base_url];
      [|discriminate].
    intros [= ->]. reflexivity.
Qed.

(** A guarded block that opens with an external call logs that call
    first. *)
Lemma try_answer_first {A B : Type} (ev : event) (r : exn + A)
  (k : A -> M B) (h : exn -> M B) (w : world) :
  (forall a, emits (fun _ => True) (k a)) ->
  (forall e, emits (fun _ => True) (h e)) ->
  exists rest,
    log (snd (try_except (bind (answer ev r) k) h w)) =
    (log w ++ ev :: rest)%list.
Proof.
  intros Hk Hh. unfold try_except, bind, answer.
  set (w1 := emit ev w).
  destruct r as [e|a].
  - destruct (Hh e w1) as (evs & Hlog & _).
    exists evs. rewrite Hlog. unfold w1. simpl. now rewrite <- app_assoc.
  - destruct (Hk a w1) as (evs & Hlog & _).
    destruct (k a w1) as [[b|e] w2]; simpl in *.
    + exists evs. rewrite Hlog. unfold w1. simpl. now rewrite <- app_assoc.
    + destruct (Hh e w2) as (evs' & Hlog' & _).
      exists (evs ++ evs')%list. rewrite Hlog', Hlog. unfold w1. simpl.
      now rewrite <- !app_assoc.
Qed.

(** With a temporary directory, the round trip is its [try] statement on
    the scratch path. *)
Lemma download_past_tempdir (bucket : Bucket) (file_id name : string)
  (w : world) :
  gettempdir_raises os = None ->
  download_file_from_b2 os bucket file_id name w =
  download_try os bucket file_id (temp_file_path os name) w.
Proof.
  intros Hdir. unfold download_file_from_b2, bind, tempfile_gettempdir.
  now rewrite Hdir.
Qed.

(** Without one, it raises at once: no SDK call, no message. *)
Lemma download_no_tempdir (bucket : Bucket) (file_id name : string)
  (e : exn) (w : world) :
  gettempdir_raises os = Some e ->
  download_file_from_b2 os bucket file_id name w = (Raise e, w).
Proof.
  intros Hdir. unfold download_file_from_b2, bind, tempfile_gettempdir.
  now rewrite Hdir.
Qed.

(** Past line 39, a download round trip starts with the SDK call. *)
Lemma download_starts_with_call (bucket : Bucket) (file_id name : string)
  (w : world) :
  gettempdir_raises os = None ->
  exists rest,
    log (snd (download_file_from_b2 os bucket file_id name w)) =
    (log w ++ call_download_file_by_id file_id :: rest)%list.
Proof.
  intros Hdir. rewrite (download_past_tempdir _ _ _ _ Hdir).
  unfold download_try. apply try_answer_first.
  - intros d. effects.
  - intros e. effects.
Qed.

(** The view handler when the issuance of the signed URL fails. *)
Lemma visualizar_pdf_fallback (bucket : Bucket) (selected_file : entry)
  (e : exn) (w : world) :
  sign_failure bucket (e_name selected_file) 60 = Some e ->
  let w2 :=
    emit (st_error fallback_notice)
      (emit (st_error ("Erro ao gerar URL assinada: " ++ e))
         (emit_all (sign_calls bucket (e_name selected_file) 60) w)) in
  let round_trip :=
    download_file_from_b2 os bucket (e_id selected_file)
      (e_name selected_file) w2 in
  visualizar_pdf os bucket selected_file w =
  match fst round_trip with
  | Ok pdf_bytes =>
      (Ok tt,
       emit (st_markdown (alt_href (Py.b64encode pdf_bytes)))
         (emit (st_success "PDF carregado usando método alternativo!")
            (snd round_trip)))
  | Raise e' =>
      (Ok tt,
       emit (st_error ("Erro ao visualizar arquivo: " ++ e'))
         (snd round_trip))
  end.
Proof.
  intros Hfail w2 round_trip.
  unfold visualizar_pdf, try_except, bind at 1.
  rewrite (get_signed_url_fails bucket _ 60 e w Hfail).
  cbn [Py.truthy_opt]. unfold bind at 1, show at 1.
  unfold bind at 1. fold fallback_notice. fold w2. fold round_trip.
  destruct round_trip as [[pdf_bytes|e'] w3]; reflexivity.
Qed.

End View.

(** C7 fails as stated: the authorization call is refused, the fallback
    download succeeds and the link is shown, yet the user has been shown
    two error messages on the way. *)
Lemma C7_fallback_shows_errors :
  emitted (visualizar_pdf sample_os refusing_bucket entry_c) empty_world =
    [ call_get_download_authorization "c.pdf" 60;
      st_error "Erro ao gerar URL assinada: download authorization refused";
      st_error fallback_notice;
      call_download_file_by_id "id-c";
      st_success "PDF carregado usando método alternativo!";
      st_markdown (alt_href "JVBERg==") ] /\
  ~ C7_as_stated sample_os refusing_bucket entry_c empty_world.
Proof.
  split; [reflexivity|].
  intros H. destruct (H _ eq_refl) as [_ Hno]. discriminate Hno.
Qed.

(** C7, amended: when the issuance of the signed URL fails, the handler
    shows the issuance error and the notice of the alternative method
    (both with [st.error]) and then enters the download round trip.  When
    [tempfile.gettempdir()] answers, the round trip calls
    [download_file_by_id]; when it raises, the round trip raises at once,
    without SDK call or message.  If the round trip returns the bytes the
    handler shows the success message and the link on the base64 data
    URL, and only if the round trip raises does it report the final
    failure.  The handler itself never raises. *)
Theorem C7_fallback_after_error_messages (os : OS) (bucket : Bucket)
  (selected_file : entry) (e : exn) (w : world) :
  sign_failure bucket (e_name selected_file) 60 = Some e ->
  let w2 :=
    emit (st_error fallback_notice)
      (emit (st_error ("Erro ao gerar URL assinada: " ++ e))
         (emit_all (sign_calls bucket (e_name selected_file) 60) w)) in
  let round_trip :=
    download_file_from_b2 os bucket (e_id selected_file)
      (e_name selected_file) w2 in
  (gettempdir_raises os = None ->
   exists rest,
     log (snd round_trip) =
     (log w ++ sign_calls bucket (e_name selected_file) 60 ++
      [ st_error ("Erro ao gerar URL assinada: " ++ e);
        st_error fallback_notice;
        call_download_file_by_id (e_id selected_file) ] ++ rest)%list) /\
  (forall e', gettempdir_raises os = Some e' ->
              round_trip = (Raise e', w2)) /\
  visualizar_pdf os bucket selected_file w =
  match fst round_trip with
  | Ok pdf_bytes =>
      (Ok tt,
       emit (st_markdown
               (link_html ("data:application/pdf;base64," ++
                           Py.b64encode pdf_bytes)))
         (emit (st_success "PDF carregado usando método alternativo!")
            (snd round_trip)))
  | Raise e' =>
      (Ok tt,
       emit (st_error ("Erro ao visualizar arquivo: " ++ e'))
         (snd round_trip))
  end.
Proof.
  intros Hfail w2 round_trip. split; [|split].
  - intros Hdir.
    destruct (download_starts_with_call os bucket (e_id selected_file)
                (e_name selected_file) w2 Hdir) as (rest & Hlog).
    exists rest. fold round_trip in Hlog. rewrite Hlog.
    unfold w2. cbn [log emit]. rewrite log_emit_all.
    rewrite <- !app_assoc. reflexivity.
  - intros e' Hdir. now apply download_no_tempdir.
  - exact (visualizar_pdf_fallback os bucket selected_file e w Hfail).
Qed.

Lemma C7_witness :
  sign_failure refusing_bucket (e_name entry_c) 60
    = Some "download authorization refused" /\
  fst (visualizar_pdf sample_os refusing_bucket entry_c empty_world)
    = Ok tt /\
  log (snd (visualizar_pdf sample_os refusing_bucket entry_c empty_world)) =
    [ call_get_download_authorization "c.pdf" 60;
      st_error "Erro ao gerar URL assinada: download authorization refused";
      st_error fallback_notice;
      call_download_file_by_id "id-c";
      st_success "PDF carregado usando método alternativo!";
      st_markdown (link_html "data:application/pdf;base64,JVBERg==") ].
Proof.
  split; [reflexivity|].
  rewrite (proj2 (proj2 (C7_fallback_after_error_messages sample_os
                           refusing_bucket entry_c
                           "download authorization refused" empty_world
                           eq_refl))).
  split; reflexivity.
Defined.

(** ** The scratch file of a download round trip *)

Section Scratch.

Variable os : OS.

(** A round trip that returns the bytes has removed its scratch file. *)
Lemma download_ok_removes_scratch (bucket : Bucket) (file_id name : string)
  (pdf_bytes : list byte) (w : world) :
  fst (download_file_from_b2 os bucket file_id name w) = Ok pdf_bytes ->
  fs (snd (download_file_from_b2 os bucket file_id name w))
     (temp_file_path os name) = None.
Proof.
  destruct (gettempdir_raises os) as [e|] eqn:Hdir.
  { rewrite (download_no_tempdir os bucket file_id name e w Hdir).
    discriminate. }
  rewrite (download_past_tempdir os bucket file_id name w Hdir).
  set (path := temp_file_path os name).
  unfold download_try, try_except, bind, answer, save_to, read_from,
    os_path_exists, os_remove, show, raise, ret.
  destruct (download_file_by_id bucket file_id) as [e|d];
    [intros H; cbn in H; discriminate H|].
  destruct (open_wb_raises os path); [intros H; cbn in H; discriminate H|].
  destruct (save_raises d); [intros H; cbn in H; discriminate H|].
  destruct (open_rb_raises os path); [intros H; cbn in H; discriminate H|].
  cbn [fs write_file emit]. rewrite String.eqb_refl.
  destruct (read_raises os path); [intros H; cbn in H; discriminate H|].
  cbn [fs write_file emit]. rewrite String.eqb_refl.
  destruct (remove_raises os path); [intros H; cbn in H; discriminate H|].
  cbn [fs write_file emit]. rewrite String.eqb_refl.
  cbn [fst snd fs write_file emit]. intros _. now rewrite String.eqb_refl.
Qed.

(** A round trip whose [save] raises leaves what was written in the
    scratch file, whatever the rest of the system does. *)
Lemma download_save_raises_keeps_scratch (bucket : Bucket)
  (file_id name : string) (d : DownloadedFile) (e : exn) (w : world) :
  gettempdir_raises os = None ->
  download_file_by_id bucket file_id = inr d ->
  open_wb_raises os (temp_file_path os name) = None ->
  save_raises d = Some e ->
  fst (download_file_from_b2 os bucket file_id name w) = Raise e /\
  fs (snd (download_file_from_b2 os bucket file_id name w))
     (temp_file_path os name) = Some (saved d).
Proof.
  intros Hdir. rewrite (download_past_tempdir os bucket file_id name w Hdir).
  set (path := temp_file_path os name).
  unfold download_try, try_except, bind, answer, save_to, show, raise.
  intros -> -> ->. cbn [fst snd fs write_file emit].
  now rewrite String.eqb_refl.
Qed.

End Scratch.

(** C8 (fails on the code): [os.remove] is reached only when the whole
    round trip succeeds; the handler of line 58 shows the error and
    re-raises without removing the file.  First run: [save] raises after
    two bytes.  Second run: the file is written and reading it raises.
    In both the scratch file, absent before, is present afterwards. *)
Theorem C8_failed_round_trip_leaves_scratch_file :
  fs empty_world "/tmp/c.pdf" = None /\
  (let run :=
     download_file_from_b2 sample_os breaking_bucket "id-c" "c.pdf"
       empty_world in
   fst run = Raise "connection reset by peer" /\
   fs (snd run) "/tmp/c.pdf" = Some [x25; x50]%byte) /\
  (let run :=
     download_file_from_b2 unreadable_os refusing_bucket "id-c" "c.pdf"
       empty_world in
   fst run = Raise "[Errno 5] Input/output error" /\
   fs (snd run) "/tmp/c.pdf" = Some pdf_magic).
Proof. repeat split. Qed.

(* ================================================================== *)
(** * Further properties *)

(** ** The catalog build, continued *)

Section CatalogMore.

Lemma last_named_Some (k : string) (l : list ls_item) (t : ls_item) :
  In t l -> name_of t = k -> last_named k l <> None.
Proof.
  intros Hin Hk Hnone.
  now apply (last_named_None k l Hnone t Hin).
Qed.

Lemma catalog_names_NoDup (l : list ls_item) :
  NoDup (map e_name (catalog l)).
Proof.
  apply (Permutation_NoDup (l := map e_name (Py.values (build_files l)))).
  - apply Permutation_map. symmetry. apply catalog_perm.
  - rewrite <- keys_are_names. apply build_files_inv.
Qed.

(** X1: the names of the catalog are exactly the names of the listed
    records that pass the test of line 142: no accepted name is lost and
    no name is invented. *)
Theorem X1_catalog_names_complete (l : list ls_item) (k : string) :
  In k (map e_name (catalog l)) <->
  exists t, In t l /\ Py.endswith (file_name (fst t)) ".pdf" = true /\
            file_name (fst t) = k.
Proof.
  split.
  - intros Hin. apply in_map_iff in Hin as (e & <- & He).
    apply In_catalog in He.
    destruct (build_files_inv l) as [_ Hall].
    destruct (Hall _ _ He) as (_ & _ & t & Ht & Hacc & ->).
    exists t. auto.
  - intros (t & Ht & Hacc & <-).
    destruct (last_named (file_name (fst t)) l) as [r|] eqn:Hlast.
    + destruct (last_named_In _ _ _ Hlast) as (Hname & _).
      apply in_map_iff. exists (entry_of r). split; [exact Hname|].
      apply In_catalog. simpl. rewrite Hname.
      apply get_In. rewrite (get_build_files _ l Hacc), Hlast. reflexivity.
    + now destruct (last_named_Some _ l t Ht eq_refl).
Qed.

(** X2: the entry that the catalog retains for a name is built from the
    record of that name that arrives last in the listing; when records of
    one name arrive oldest first, it is therefore the newest of them. *)
Theorem X2_retained_is_last_arrival (l : list ls_item) (e : entry) :
  In e (catalog l) ->
  (exists r, last_named (e_name e) l = Some r /\ e = entry_of r) /\
  (ForallOrdPairs older_first l ->
   forall t, In t l -> file_name (fst t) = e_name e ->
   upload_timestamp (fst t) <= e_upload_timestamp e).
Proof.
  intros He.
  pose proof (catalog_keeps_last_arrival l e He) as Hlast.
  destruct (last_named (e_name e) l) as [r|] eqn:Hl; [|discriminate].
  simpl in Hlast. injection Hlast as <-. split.
  - exists r. auto.
  - intros Hord t Ht Hname.
    now apply (last_named_newest (e_name (entry_of r)) l).
Qed.

Lemma X2_witness :
  (exists r, last_named "b.pdf" mixed_listing = Some r /\
             mkEntry "id-4" "b.pdf" 4096 400 = entry_of r) /\
  (ForallOrdPairs older_first mixed_listing ->
   forall t, In t mixed_listing -> file_name (fst t) = "b.pdf" ->
   upload_timestamp (fst t) <= 400).
Proof.
  apply (X2_retained_is_last_arrival mixed_listing
           (mkEntry "id-4" "b.pdf" 4096 400)).
  simpl. left. reflexivity.
Defined.

Lemma setitem_fresh {V : Type} (d : Py.dict V) (k : string) (v : V) :
  ~ In k (Py.keys d) -> Py.setitem d k v = (d ++ [(k, v)])%list.
Proof.
  induction d as [|[k0 v0] d IH]; simpl; intros Hfresh; [reflexivity|].
  destruct (String.eqb_spec k0 k) as [->|Hne]; [tauto|].
  f_equal. apply IH. tauto.
Qed.

Lemma fold_distinct_names (l : list ls_item) :
  forall files,
  NoDup (Py.keys files ++ map name_of l) ->
  fold_left catalog_step l files =
  (files ++ map (fun t => (name_of t, entry_of (fst t)))
              (filter accepted l))%list.
Proof.
  induction l as [|t l IH]; intros files Hnd; simpl.
  - now rewrite app_nil_r.
  - rewrite catalog_step_eq. simpl in Hnd.
    assert (Hfresh : ~ In (name_of t) (Py.keys files)).
    { apply NoDup_remove_2 in Hnd. rewrite in_app_iff in Hnd. tauto. }
    destruct (accepted t) eqn:Hacc.
    + fold (name_of t). rewrite (setitem_fresh files _ _ Hfresh).
      rewrite IH.
      * simpl. rewrite <- app_assoc. reflexivity.
      * unfold Py.keys. rewrite map_app, <- app_assoc. exact Hnd.
    + apply IH. now apply NoDup_remove_1 in Hnd.
Qed.

Lemma sort_desc_sorted_id {A : Type} (key : A -> Z) (l : list A) :
  StronglySorted (desc key) l -> Py.sort_desc key l = l.
Proof.
  intros Hs. symmetry. apply sort_desc_unique; [exact Hs|].
  intros t. reflexivity.
Qed.

(** X3: for a listing in which no two records share a name (what the
    SDK's latest-only listing delivers), the catalog is the stable
    descending sort of the accepted records, each copied field by field:
    nothing is merged and nothing is dropped but the records that fail
    the test. *)
Theorem X3_distinct_names_catalog (l : list ls_item) :
  NoDup (map (fun t => file_name (fst t)) l) ->
  catalog l =
  Py.sort_desc e_upload_timestamp
    (map (fun t => entry_of (fst t))
       (filter (fun t => Py.endswith (file_name (fst t)) ".pdf") l)) /\
  Permutation (catalog l)
    (map (fun t => entry_of (fst t))
       (filter (fun t => Py.endswith (file_name (fst t)) ".pdf") l)).
Proof.
  intros Hnd.
  assert (Hfiles : build_files l =
                   map (fun t => (name_of t, entry_of (fst t)))
                     (filter accepted l)).
  { unfold build_files. now rewrite (fold_distinct_names l []). }
  assert (Hcat : catalog l =
                 Py.sort_desc e_upload_timestamp
                   (map (fun t => entry_of (fst t)) (filter accepted l))).
  { rewrite catalog_eq. unfold sorted_file_list, Py.values.
    rewrite Hfiles, map_map. reflexivity. }
  split; [exact Hcat|].
  rewrite Hcat. apply sort_desc_perm.
Qed.

Lemma X3_witness :
  catalog tied_listing =
  Py.sort_desc e_upload_timestamp
    (map (fun t => entry_of (fst t))
       (filter (fun t => Py.endswith (file_name (fst t)) ".pdf")
          tied_listing)) /\
  Permutation (catalog tied_listing)
    (map (fun t => entry_of (fst t))
       (filter (fun t => Py.endswith (file_name (fst t)) ".pdf")
          tied_listing)).
Proof.
  apply (X3_distinct_names_catalog tied_listing).
  repeat constructor; simpl; intuition discriminate.
Defined.

Lemma relist_entry (e : entry) : entry_of (fst (relist e)) = e.
Proof. now destruct e. Qed.

(** X4: the catalog is a fixed point of the build: listing the entries of
    a catalog again, as records, gives the same catalog in the same
    order. *)
Theorem X4_catalog_idempotent (l : list ls_item) :
  catalog (map relist (catalog l)) = catalog l.
Proof.
  assert (Hnd : NoDup (map name_of (map relist (catalog l)))).
  { rewrite map_map. apply catalog_names_NoDup. }
  assert (Hfiles : build_files (map relist (catalog l)) =
                   map (fun t => (name_of t, entry_of (fst t)))
                     (filter accepted (map relist (catalog l)))).
  { unfold build_files. now rewrite (fold_distinct_names _ []). }
  assert (Hall : filter accepted (map relist (catalog l))
                 = map relist (catalog l)).
  { apply forallb_filter_id. apply forallb_forall.
    intros t Ht. apply in_map_iff in Ht as (e & <- & He).
    apply (catalog_names_pdf l e He). }
  rewrite (catalog_eq (map relist (catalog l))).
  unfold sorted_file_list, Py.values.
  rewrite Hfiles, Hall, !map_map.
  rewrite (map_ext _ (fun e => e)) by (intros e; apply relist_entry).
  rewrite map_id. apply sort_desc_sorted_id.
  rewrite catalog_eq. apply sort_desc_sorted.
Qed.

Lemma keys_setitem_eq {V : Type} (d : Py.dict V) (k : string) (v : V) :
  Py.keys (Py.setitem d k v) =
  if existsb (String.eqb k) (Py.keys d) then Py.keys d
  else (Py.keys d ++ [k])%list.
Proof.
  induction d as [|[k0 v0] d IH]; simpl; [reflexivity|].
  rewrite (String.eqb_sym k k0).
  destruct (String.eqb k0 k); simpl; [reflexivity|].
  rewrite IH. now destruct (existsb (String.eqb k) (Py.keys d)).
Qed.

Lemma keys_fold (l : list ls_item) :
  forall files,
  Py.keys (fold_left catalog_step l files) =
  (Py.keys files ++ first_seen (Py.keys files) l)%list.
Proof.
  induction l as [|t l IH]; intros files; simpl.
  - now rewrite app_nil_r.
  - rewrite IH, catalog_step_eq.
    destruct (accepted t); simpl; [|reflexivity].
    fold (name_of t). rewrite keys_setitem_eq.
    destruct (existsb (String.eqb (name_of t)) (Py.keys files)); simpl.
    + reflexivity.
    + now rewrite <- app_assoc.
Qed.

Lemma map_filter_pairs (d : Py.dict entry) (P : entry -> bool)
  (P' : string -> bool) :
  (forall k v, In (k, v) d -> e_name v = k /\ P' k = P v) ->
  map e_name (filter P (Py.values d)) = filter P' (Py.keys d).
Proof.
  induction d as [|[k v] d IH]; intros Hall; [reflexivity|].
  destruct (Hall k v (or_introl eq_refl)) as [Hname HP].
  assert (Htail : map e_name (filter P (Py.values d))
                  = filter P' (Py.keys d)).
  { apply IH. intros k' v' Hin. apply Hall. now right. }
  unfold Py.values, Py.keys in *. cbn [map filter fst snd].
  rewrite HP. destruct (P v); cbn [map]; congruence.
Qed.

(** X5: the order of the catalog among equal timestamps.  [files] lists
    the accepted names in the order in which each first appears in the
    listing (a later record of a known name does not move it), and the
    entries of the catalog that share a timestamp stand in that order. *)
Theorem X5_ties_in_order_of_first_appearance (l : list ls_item) :
  Py.keys (build_files l) = first_seen [] l /\
  forall t : Z,
    map e_name (with_key e_upload_timestamp t (catalog l)) =
    filter (fun k => match timestamp_in (build_files l) k with
                     | Some t' => t' =? t
                     | None => false
                     end)
      (first_seen [] l).
Proof.
  assert (Hkeys : Py.keys (build_files l) = first_seen [] l).
  { unfold build_files. now rewrite keys_fold. }
  split; [exact Hkeys|].
  intros t. rewrite <- Hkeys, catalog_eq.
  unfold sorted_file_list.
  rewrite (sort_desc_stable e_upload_timestamp _ t).
  apply map_filter_pairs.
  destruct (build_files_inv l) as [Hnd Hall].
  intros k v Hin. destruct (Hall k v Hin) as (Hname & _).
  split; [exact Hname|].
  unfold timestamp_in. now rewrite (In_get _ _ _ Hnd Hin).
Qed.

End CatalogMore.

(** ** Exceptions and files: how computations compose *)

Section EffectsMore.

Context {A B : Type}.

Lemma returns_ret (a : A) : returns (ret a).
Proof. intros w. now exists a. Qed.

Lemma returns_bind (m : M A) (k : A -> M B) :
  returns m -> (forall a, returns (k a)) -> returns (bind m k).
Proof.
  intros Hm Hk w. unfold bind. destruct (Hm w) as (a & Ha).
  destruct (m w) as [[a'|e] w']; simpl in Ha; [|discriminate].
  apply Hk.
Qed.

(** A guarded block returns as soon as its handler does. *)
Lemma returns_try (body : M A) (handler : exn -> M A) :
  (forall e, returns (handler e)) -> returns (try_except body handler).
Proof.
  intros Hh w. unfold try_except.
  destruct (body w) as [[a|e] w']; [now exists a | apply Hh].
Qed.

Lemma keeps_file_ret (p : string) (a : A) : keeps_file p (ret a).
Proof. intros w. reflexivity. Qed.

Lemma keeps_file_raise (p : string) (e : exn) : keeps_file p (@raise A e).
Proof. intros w. reflexivity. Qed.

Lemma keeps_file_answer (p : string) (e : event) (r : exn + A) :
  keeps_file p (answer e r).
Proof. intros w. now destruct r. Qed.

Lemma keeps_file_bind (p : string) (m : M A) (k : A -> M B) :
  keeps_file p m -> (forall a, keeps_file p (k a)) ->
  keeps_file p (bind m k).
Proof.
  intros Hm Hk w. unfold bind. specialize (Hm w).
  destruct (m w) as [[a|e] w']; simpl in *; [|exact Hm].
  now rewrite Hk.
Qed.

Lemma keeps_file_try (p : string) (body : M A) (handler : exn -> M A) :
  keeps_file p body -> (forall e, keeps_file p (handler e)) ->
  keeps_file p (try_except body handler).
Proof.
  intros Hm Hk w. unfold try_except. specialize (Hm w).
  destruct (body w) as [[a|e] w']; simpl in *; [exact Hm|].
  now rewrite Hk.
Qed.

End EffectsMore.

Lemma returns_show (e : event) : returns (show e).
Proof. intros w. now exists tt. Qed.

Lemma keeps_file_show (p : string) (e : event) : keeps_file p (show e).
Proof. intros w. reflexivity. Qed.

Section FilesMore.

Variables (os : OS) (user : User).

Lemma keeps_file_initialize_b2 (p : string) (r : exn + Bucket) :
  keeps_file p (initialize_b2 r).
Proof. intros w. unfold initialize_b2. now destruct r. Qed.

Lemma keeps_file_save_to (p path : string) (d : DownloadedFile) :
  p <> path -> keeps_file p (save_to os d path).
Proof.
  intros Hne w. unfold save_to.
  destruct (open_wb_raises os path); [reflexivity|].
  destruct (save_raises d); simpl;
    now destruct (String.eqb_spec p path).
Qed.

Lemma keeps_file_read_from (p path : string) :
  keeps_file p (read_from os path).
Proof.
  intros w. unfold read_from.
  destruct (open_rb_raises os path); [reflexivity|].
  destruct (fs w path); [|reflexivity].
  now destruct (read_raises os path).
Qed.

Lemma keeps_file_os_path_exists (p path : string) :
  keeps_file p (os_path_exists path).
Proof. intros w. unfold os_path_exists. now destruct (fs w path). Qed.

Lemma keeps_file_os_remove (p path : string) :
  p <> path -> keeps_file p (os_remove os path).
Proof.
  intros Hne w. unfold os_remove.
  destruct (remove_raises os path); [reflexivity|].
  destruct (fs w path); [|reflexivity].
  simpl. now destruct (String.eqb_spec p path).
Qed.

Lemma keeps_file_tempfile_gettempdir (p : string) :
  keeps_file p (tempfile_gettempdir os).
Proof.
  intros w. unfold tempfile_gettempdir. now destruct (gettempdir_raises os).
Qed.

Lemma keeps_file_selectbox (p : string) (label : string)
  (options : list string) :
  keeps_file p (selectbox user label options).
Proof. intros w. reflexivity. Qed.

Lemma keeps_file_remember_upload (p : string) (r : upload_record) :
  keeps_file p (remember_upload r).
Proof. intros w. reflexivity. Qed.

End FilesMore.

Ltac frame_step :=
  match goal with
  | |- keeps_file _ (bind _ _) => apply keeps_file_bind; [|intros ?]
  | |- keeps_file _ (try_except _ _) => apply keeps_file_try; [|intros ?]
  | |- keeps_file _ (ret _) => apply keeps_file_ret
  | |- keeps_file _ (raise _) => apply keeps_file_raise
  | |- keeps_file _ (show _) => apply keeps_file_show
  | |- keeps_file _ (answer _ _) => apply keeps_file_answer
  | |- keeps_file _ (initialize_b2 _) => apply keeps_file_initialize_b2
  | |- keeps_file _ (read_from _ _) => apply keeps_file_read_from
  | |- keeps_file _ (os_path_exists _) => apply keeps_file_os_path_exists
  | |- keeps_file _ (selectbox _ _ _) => apply keeps_file_selectbox
  | |- keeps_file _ (remember_upload _) => apply keeps_file_remember_upload
  | |- keeps_file _ (save_to _ _ _) => apply keeps_file_save_to
  | |- keeps_file _ (os_remove _ _) => apply keeps_file_os_remove
  | |- keeps_file _ (tempfile_gettempdir _) =>
      apply keeps_file_tempfile_gettempdir
  | |- returns (bind _ _) => apply returns_bind; [|intros ?]
  | |- returns (try_except _ _) => apply returns_try; intros ?
  | |- returns (ret _) => apply returns_ret
  | |- returns (show _) => apply returns_show
  | |- keeps_file _ (if ?b then _ else _) => destruct b
  | |- returns (if ?b then _ else _) => destruct b
  | |- keeps_file _ (match ?x with _ => _ end) => destruct x
  | |- returns (match ?x with _ => _ end) => destruct x
  end.

Ltac frame := repeat frame_step; try assumption.

(** ** The download round trip, continued *)

Section DownloadMore.

Variable os : OS.

Lemma download_keeps_other_files (bucket : Bucket) (file_id name p : string) :
  p <> temp_file_path os name ->
  keeps_file p (download_file_from_b2 os bucket file_id name).
Proof.
  intros Hne w. destruct (gettempdir_raises os) as [e|] eqn:Hdir.
  - now rewrite (download_no_tempdir os bucket file_id name e w Hdir).
  - rewrite (download_past_tempdir os bucket file_id name w Hdir).
    revert w.
    change (keeps_file p
              (download_try os bucket file_id (temp_file_path os name))).
    unfold download_try. frame.
Qed.

Lemma download_try_log (bucket : Bucket) (file_id path : string)
  (w : world) :
  log (snd (download_try os bucket file_id path w)) =
  (log w ++
   call_download_file_by_id file_id ::
   match fst (download_try os bucket file_id path w) with
   | Ok _ => []
   | Raise e => [st_error ("Erro ao baixar arquivo: " ++ e)]
   end)%list.
Proof.
  unfold download_try, try_except, bind, answer, save_to, read_from,
    os_path_exists, os_remove, show, raise, ret.
  destruct (download_file_by_id bucket file_id) as [e|d];
    [cbn; now rewrite <- app_assoc|].
  destruct (open_wb_raises os path); [cbn; now rewrite <- app_assoc|].
  destruct (save_raises d); [cbn; now rewrite <- app_assoc|].
  destruct (open_rb_raises os path); [cbn; now rewrite <- app_assoc|].
  cbn [fs write_file emit]. rewrite String.eqb_refl.
  destruct (read_raises os path); [cbn; now rewrite <- app_assoc|].
  cbn [fs write_file emit]. rewrite String.eqb_refl.
  destruct (remove_raises os path); [cbn; now rewrite <- app_assoc|].
  cbn [fs write_file emit]. rewrite String.eqb_refl. reflexivity.
Qed.

Lemma download_log (bucket : Bucket) (file_id name : string) (w : world) :
  log (snd (download_file_from_b2 os bucket file_id name w)) =
  (log w ++
   match gettempdir_raises os with
   | Some _ => []
   | None =>
       call_download_file_by_id file_id ::
       match fst (download_file_from_b2 os bucket file_id name w) with
       | Ok _ => []
       | Raise e => [st_error ("Erro ao baixar arquivo: " ++ e)]
       end
   end)%list.
Proof.
  destruct (gettempdir_raises os) as [e|] eqn:Hdir.
  - rewrite (download_no_tempdir os bucket file_id name e w Hdir).
    simpl. now rewrite app_nil_r.
  - rewrite (download_past_tempdir os bucket file_id name w Hdir).
    apply download_try_log.
Qed.

(** X6: when the temporary directory is found, the SDK delivers the
    object and no file operation fails, the round trip returns exactly
    the bytes that [save] wrote, logs the one SDK call and nothing else,
    removes its scratch file and leaves the session alone. *)
Theorem X6_download_round_trip (bucket : Bucket) (file_id name : string)
  (d : DownloadedFile) (w : world) :
  let path := temp_file_path os name in
  let run := download_file_from_b2 os bucket file_id name w in
  gettempdir_raises os = None ->
  download_file_by_id bucket file_id = inr d ->
  save_raises d = None ->
  open_wb_raises os path = None ->
  open_rb_raises os path = None ->
  read_raises os path = None ->
  remove_raises os path = None ->
  fst run = Ok (saved d) /\
  emitted (download_file_from_b2 os bucket file_id name) w
    = [call_download_file_by_id file_id] /\
  fs (snd run) path = None /\
  uploaded_files (snd run) = uploaded_files w.
Proof.
  intros path run Hdir Hd Hsave Hwb Hrb Hread Hrm.
  assert (Hrun : run =
    (Ok (saved d),
     write_file path None
       (write_file path (Some (saved d))
          (emit (call_download_file_by_id file_id) w)))).
  { unfold run. rewrite (download_past_tempdir os bucket file_id name w Hdir).
    fold path.
    unfold download_try, try_except, bind, answer, save_to, read_from,
      os_path_exists, os_remove, ret.
    rewrite Hd, Hwb, Hsave, Hrb. cbn [fs write_file emit].
    rewrite String.eqb_refl, Hread. cbn [fs write_file emit].
    rewrite String.eqb_refl, Hrm. cbn [fs write_file emit].
    now rewrite String.eqb_refl. }
  repeat split.
  - now rewrite Hrun.
  - apply emitted_eq. fold run. now rewrite Hrun.
  - rewrite Hrun. simpl. now rewrite String.eqb_refl.
  - now rewrite Hrun.
Qed.

(** X7: when [tempfile.gettempdir()] raises (line 39, before the [try]),
    the round trip raises that exception at once: no SDK call, no
    message, nothing changed.  Otherwise it calls the SDK exactly once; if
    it then fails it shows its own error message and raises the very
    exception it has shown, and if it returns it shows no message. *)
Theorem X7_download_reports_what_it_raises (bucket : Bucket)
  (file_id name : string) (w : world) :
  emitted (download_file_from_b2 os bucket file_id name) w =
  match gettempdir_raises os with
  | Some _ => []
  | None =>
      call_download_file_by_id file_id ::
      match fst (download_file_from_b2 os bucket file_id name w) with
      | Ok _ => []
      | Raise e => [st_error ("Erro ao baixar arquivo: " ++ e)]
      end
  end /\
  (forall e, gettempdir_raises os = Some e ->
             download_file_from_b2 os bucket file_id name w = (Raise e, w)).
Proof.
  split.
  - apply emitted_eq, download_log.
  - intros e Hdir. now apply download_no_tempdir.
Qed.

(** X8: a round trip changes no file but its own scratch file. *)
Theorem X8_download_keeps_other_files (bucket : Bucket)
  (file_id name p : string) (w : world) :
  p <> temp_file_path os name ->
  fs (snd (download_file_from_b2 os bucket file_id name w)) p = fs w p.
Proof. intros Hne. now apply download_keeps_other_files. Qed.

(** X9: when [tempfile.gettempdir()] raises, or the SDK call raises, or
    the scratch file cannot be opened for writing, the round trip raises
    that exception and no file is created or changed. *)
Theorem X9_download_early_failure_writes_nothing (bucket : Bucket)
  (file_id name : string) (e : exn) (w : world) :
  gettempdir_raises os = Some e \/
  (gettempdir_raises os = None /\
   (download_file_by_id bucket file_id = inl e \/
    ((exists d, download_file_by_id bucket file_id = inr d) /\
     open_wb_raises os (temp_file_path os name) = Some e))) ->
  fst (download_file_from_b2 os bucket file_id name w) = Raise e /\
  forall p, fs (snd (download_file_from_b2 os bucket file_id name w)) p
            = fs w p.
Proof.
  intros [Hdir|[Hdir H]].
  - rewrite (download_no_tempdir os bucket file_id name e w Hdir).
    split; reflexivity.
  - rewrite (download_past_tempdir os bucket file_id name w Hdir).
    unfold download_try, try_except, bind, answer, save_to, show, raise.
    destruct H as [Hd|[[d Hd] Hwb]].
    + rewrite Hd. split; reflexivity.
    + rewrite Hd, Hwb. split; reflexivity.
Qed.

(** X10: once the scratch file has been opened for writing, it is removed
    exactly when the round trip returns, and then the bytes returned are
    the bytes written; whenever the round trip raises, the file stays
    behind holding what [save] wrote. *)
Theorem X10_scratch_file_removed_iff_returned (bucket : Bucket)
  (file_id name : string) (d : DownloadedFile) (w : world) :
  let path := temp_file_path os name in
  let run := download_file_from_b2 os bucket file_id name w in
  gettempdir_raises os = None ->
  download_file_by_id bucket file_id = inr d ->
  open_wb_raises os path = None ->
  match fst run with
  | Ok pdf_bytes => pdf_bytes = saved d /\ fs (snd run) path = None
  | Raise _ => fs (snd run) path = Some (saved d)
  end.
Proof.
  intros path run Hdir Hd Hwb. unfold run.
  rewrite (download_past_tempdir os bucket file_id name w Hdir).
  fold path.
  unfold download_try, try_except, bind, answer, save_to, read_from,
    os_path_exists, os_remove, show, raise, ret.
  rewrite Hd, Hwb.
  destruct (save_raises d);
    [cbn; now rewrite String.eqb_refl|].
  destruct (open_rb_raises os path);
    [cbn; now rewrite String.eqb_refl|].
  cbn [fs write_file emit]. rewrite String.eqb_refl.
  destruct (read_raises os path);
    [cbn; now rewrite String.eqb_refl|].
  cbn [fs write_file emit]. rewrite String.eqb_refl.
  destruct (remove_raises os path);
    [cbn; now rewrite String.eqb_refl|].
  cbn [fs write_file emit fst snd]. rewrite String.eqb_refl.
  split; [reflexivity|]. simpl. now rewrite String.eqb_refl.
Qed.

End DownloadMore.

Lemma X6_witness :
  fst (download_file_from_b2 sample_os refusing_bucket "id-c" "c.pdf"
         empty_world) = Ok pdf_magic /\
  emitted (download_file_from_b2 sample_os refusing_bucket "id-c" "c.pdf")
    empty_world = [call_download_file_by_id "id-c"] /\
  fs (snd (download_file_from_b2 sample_os refusing_bucket "id-c" "c.pdf"
             empty_world)) "/tmp/c.pdf" = None /\
  uploaded_files
    (snd (download_file_from_b2 sample_os refusing_bucket "id-c" "c.pdf"
            empty_world)) = None.
Proof.
  apply (X6_download_round_trip sample_os refusing_bucket "id-c" "c.pdf"
           (mkDownloaded pdf_magic None) empty_world); reflexivity.
Defined.

Lemma X7_witness :
  download_file_from_b2 homeless_os refusing_bucket "id-c" "c.pdf"
    empty_world =
  (Raise "[Errno 2] No usable temporary directory found", empty_world).
Proof.
  apply (proj2 (X7_download_reports_what_it_raises homeless_os
                  refusing_bucket "id-c" "c.pdf" empty_world)).
  reflexivity.
Defined.

Lemma X8_witness :
  fs (snd (download_file_from_b2 sample_os refusing_bucket "id-c" "c.pdf"
             (write_file "/tmp/keep.txt" (Some pdf_magic) empty_world)))
     "/tmp/keep.txt" = Some pdf_magic.
Proof.
  rewrite (X8_download_keeps_other_files sample_os refusing_bucket "id-c"
             "c.pdf" "/tmp/keep.txt").
  - reflexivity.
  - discriminate.
Defined.

Lemma X9_witness :
  fst (download_file_from_b2 sample_os failing_bucket "id-c" "c.pdf"
         empty_world) = Raise "file not present" /\
  forall p,
    fs (snd (download_file_from_b2 sample_os failing_bucket "id-c" "c.pdf"
               empty_world)) p = fs empty_world p.
Proof.
  apply (X9_download_early_failure_writes_nothing sample_os failing_bucket
           "id-c" "c.pdf" "file not present" empty_world).
  right. split; [reflexivity|]. left. reflexivity.
Defined.

Lemma X10_witness :
  fs (snd (download_file_from_b2 sample_os breaking_bucket "id-c" "c.pdf"
             empty_world)) "/tmp/c.pdf" = Some [x25; x50]%byte.
Proof.
  exact (X10_scratch_file_removed_iff_returned sample_os breaking_bucket
           "id-c" "c.pdf"
           (mkDownloaded [x25; x50]%byte (Some "connection reset by peer"))
           empty_world eq_refl eq_refl eq_refl).
Defined.

(** ** Signed URLs and the two handlers, continued *)

Section HandlersMore.

Variable os : OS.

(** X11: [get_signed_url] never raises.  It asks for the authorization
    first and for the URL only if the authorization was given; it returns
    the URL followed by [?Authorization=] and the token when both calls
    answer, and [None] after one error message when one of them raises.
    It changes neither files nor session. *)
Theorem X11_signed_url_never_raises (bucket : Bucket) (name : string)
  (d : Z) (w : world) :
  let run := get_signed_url bucket name d w in
  fst run =
    Ok (match get_download_authorization bucket name d,
              get_download_url bucket name with
        | inr auth_token, inr base_url =>
            Some (base_url ++ "?Authorization=" ++ auth_token)
        | _, _ => None
        end) /\
  emitted (get_signed_url bucket name d) w =
    (sign_calls bucket name d ++
     match sign_failure bucket name d with
     | Some e => [st_error ("Erro ao gerar URL assinada: " ++ e)]
     | None => []
     end)%list /\
  fs (snd run) = fs w /\
  uploaded_files (snd run) = uploaded_files w.
Proof.
  intros run. split; [|split].
  - unfold run, get_signed_url, try_except, bind, answer, show, ret.
    destruct (get_download_authorization bucket name d) as [e|token];
      [reflexivity|].
    now destruct (get_download_url bucket name) as [e|base_url].
  - apply emitted_eq.
    unfold get_signed_url, sign_calls, sign_failure, try_except, bind,
      answer, show, ret.
    destruct (get_download_authorization bucket name d) as [e|token];
      [simpl; now rewrite <- app_assoc|].
    destruct (get_download_url bucket name) as [e|base_url];
      simpl; now rewrite <- !app_assoc.
  - unfold run, get_signed_url, try_except, bind, answer, show, ret.
    destruct (get_download_authorization bucket name d) as [e|token];
      [split; reflexivity|].
    destruct (get_download_url bucket name) as [e|base_url];
      split; reflexivity.
Qed.

(** X12: when the signed URL is issued, the view handler shows the
    success message and the link on that URL; it downloads nothing and
    changes no file. *)
Theorem X12_view_by_signed_url (bucket : Bucket) (selected_file : entry)
  (auth_token base_url : string) (w : world) :
  get_download_authorization bucket (e_name selected_file) 60
    = inr auth_token ->
  get_download_url bucket (e_name selected_file) = inr base_url ->
  let run := visualizar_pdf os bucket selected_file w in
  fst run = Ok tt /\
  emitted (visualizar_pdf os bucket selected_file) w =
    [ call_get_download_authorization (e_name selected_file) 60;
      call_get_download_url (e_name selected_file);
      st_success "URL autorizada gerada com sucesso!";
      st_markdown
        (link_html (base_url ++ "?Authorization=" ++ auth_token)) ] /\
  fs (snd run) = fs w.
Proof.
  intros Hauth Hurl run.
  assert (Htrue : Py.truthy (base_url ++ "?Authorization=" ++ auth_token)
                  = true) by now apply truthy_app.
  assert (Hrun : run =
    (Ok tt,
     emit_all
       [ call_get_download_authorization (e_name selected_file) 60;
         call_get_download_url (e_name selected_file);
         st_success "URL autorizada gerada com sucesso!";
         st_markdown
           (link_html (base_url ++ "?Authorization=" ++ auth_token)) ]
       w)).
  { unfold run, visualizar_pdf, get_signed_url, try_except, bind, answer,
      show, ret.
    rewrite Hauth, Hurl. cbn [Py.truthy_opt Py.format_opt].
    rewrite Htrue. reflexivity. }
  repeat split.
  - now rewrite Hrun.
  - apply emitted_eq. fold run. rewrite Hrun. cbn [snd].
    apply log_emit_all.
  - now rewrite Hrun.
Qed.

Lemma download_pdf_log (bucket : Bucket) (selected_file : entry)
  (w : world) :
  log (snd (download_pdf os bucket selected_file w)) =
  (log w ++
   match gettempdir_raises os with
   | Some e => [st_error ("Erro ao preparar download: " ++ e)]
   | None =>
       call_download_file_by_id (e_id selected_file) ::
       match fst (download_file_from_b2 os bucket (e_id selected_file)
                    (e_name selected_file) w) with
       | Ok pdf_bytes =>
           [ st_download_button "Clique aqui para baixar o arquivo"
               pdf_bytes (e_name selected_file) "application/pdf" ]
       | Raise e =>
           [ st_error ("Erro ao baixar arquivo: " ++ e);
             st_error ("Erro ao preparar download: " ++ e) ]
       end
   end)%list.
Proof.
  pose proof (download_log os bucket (e_id selected_file)
                (e_name selected_file) w) as Hlog.
  unfold download_pdf, try_except, bind, show. cbv zeta.
  destruct (gettempdir_raises os) as [e0|] eqn:Hdir.
  - rewrite (download_no_tempdir os bucket _ _ e0 w Hdir). reflexivity.
  - destruct (download_file_from_b2 os bucket (e_id selected_file)
                (e_name selected_file) w) as [[pdf_bytes|e] w'];
      simpl in *; rewrite Hlog, <- app_assoc; reflexivity.
Qed.

(** X13: when [tempfile.gettempdir()] raises, the download handler shows
    the one message 'Erro ao preparar download' and calls nothing.
    Otherwise it calls the SDK once and offers the download button
    exactly when the round trip returned, with the bytes it returned, the
    name of the selected entry and the MIME type application/pdf; when
    the round trip raised, it shows the two error messages and no
    button. *)
Theorem X13_download_button_iff_bytes (bucket : Bucket)
  (selected_file : entry) (w : world) :
  emitted (download_pdf os bucket selected_file) w =
  match gettempdir_raises os with
  | Some e => [st_error ("Erro ao preparar download: " ++ e)]
  | None =>
      call_download_file_by_id (e_id selected_file) ::
      match fst (download_file_from_b2 os bucket (e_id selected_file)
                   (e_name selected_file) w) with
      | Ok pdf_bytes =>
          [ st_download_button "Clique aqui para baixar o arquivo"
              pdf_bytes (e_name selected_file) "application/pdf" ]
      | Raise e =>
          [ st_error ("Erro ao baixar arquivo: " ++ e);
            st_error ("Erro ao preparar download: " ++ e) ]
      end
  end.
Proof. apply emitted_eq, download_pdf_log. Qed.

Lemma visualizar_pdf_returns (bucket : Bucket) (selected_file : entry) :
  returns (visualizar_pdf os bucket selected_file).
Proof. unfold visualizar_pdf. frame. Qed.

Lemma download_pdf_returns (bucket : Bucket) (selected_file : entry) :
  returns (download_pdf os bucket selected_file).
Proof. unfold download_pdf. frame. Qed.

Lemma tab1_returns (r : exn + Bucket) (user : User) :
  returns (tab1 os r user).
Proof. unfold tab1, button. frame. Qed.

Lemma tab2_returns (r : exn + Bucket) (user : User) :
  returns (tab2 os r user).
Proof. unfold tab2. frame. Qed.

Lemma returns_unit (m : M unit) (w : world) : returns m -> fst (m w) = Ok tt.
Proof. intros H. destruct (H w) as ([] & Hw). exact Hw. Qed.

(** X14: no exception leaves the script.  Whatever the SDK and the
    operating system raise, and whatever the two calls of
    [initialize_b2] answer, each handler, each tab and the whole script
    return normally. *)
Theorem X14_script_never_raises (first retry : exn + Bucket)
  (user : User) (bucket : Bucket) (selected_file : entry) (w : world) :
  fst (visualizar_pdf os bucket selected_file w) = Ok tt /\
  fst (download_pdf os bucket selected_file w) = Ok tt /\
  fst (tab1 os first user w) = Ok tt /\
  fst (tab2 os first user w) = Ok tt /\
  fst (app os first retry user w) = Ok tt.
Proof.
  repeat split; apply returns_unit.
  - apply visualizar_pdf_returns.
  - apply download_pdf_returns.
  - apply tab1_returns.
  - apply tab2_returns.
  - unfold app. frame; first [apply tab1_returns | apply tab2_returns].
Qed.

End HandlersMore.

Lemma X12_witness :
  fst (visualizar_pdf sample_os signing_bucket entry_c empty_world) = Ok tt /\
  emitted (visualizar_pdf sample_os signing_bucket entry_c) empty_world =
    [ call_get_download_authorization "c.pdf" 60;
      call_get_download_url "c.pdf";
      st_success "URL autorizada gerada com sucesso!";
      st_markdown
        (link_html
           "https://f000.backblazeb2.com/file/pdfs/c.pdf?Authorization=3_token") ] /\
  fs (snd (visualizar_pdf sample_os signing_bucket entry_c empty_world))
    = fs empty_world.
Proof.
  exact (X12_view_by_signed_url sample_os signing_bucket entry_c "3_token"
           "https://f000.backblazeb2.com/file/pdfs/c.pdf" empty_world
           eq_refl eq_refl).
Defined.

(** ** The browse view, continued *)

Section BrowseMore.

Variables (os : OS) (user : User).

Lemma emits_selectbox (P : event -> Prop) (label : string)
  (options : list string) :
  P (st_selectbox label options 0) ->
  emits P (selectbox user label options).
Proof.
  intros HP w. exists [st_selectbox label options 0].
  split; [reflexivity | now constructor].
Qed.

Lemma emits_emitted {A : Type} (P : event -> Prop) (m : M A) (w : world) :
  emits P m -> Forall P (emitted m w).
Proof.
  intros H. destruct (H w) as (evs & Hlog & Hall).
  now rewrite (emitted_eq m w evs Hlog).
Qed.

(** X15: rendering the browse view without pressing a button asks the
    bucket for nothing but the listing (no download, no signed URL, no
    upload) and changes no file. *)
Theorem X15_browsing_requests_nothing (initialize_b2_answer : exn + Bucket)
  (w : world) :
  click_visualizar user = false -> click_download user = false ->
  Forall no_object_request (emitted (tab2 os initialize_b2_answer user) w) /\
  forall p, fs (snd (tab2 os initialize_b2_answer user w)) p = fs w p.
Proof.
  intros Hview Hdown. split.
  - apply emits_emitted.
    unfold tab2, tab2_selected, index_of, getitem, button.
    rewrite Hview, Hdown. cbv iota.
    effects; try apply emits_selectbox; effects.
  - intros p. revert w.
    change (keeps_file p (tab2 os initialize_b2_answer user)).
    unfold tab2, tab2_selected, index_of, getitem, button.
    rewrite Hview, Hdown. cbv iota. frame.
Qed.

Lemma index_nth_error (options : list string) :
  forall (i : nat) (s : string),
  nth_error options i = Some s ->
  exists j, Py.index options s = Some j /\ (j <= i)%nat /\
            nth_error options j = Some s.
Proof.
  induction options as [|o options IH]; intros i s Hi.
  - now destruct i.
  - simpl. destruct (String.eqb_spec o s) as [->|Hne].
    + exists 0%nat. repeat split. lia.
    + destruct i as [|i]; simpl in Hi; [congruence|].
      destruct (IH i s Hi) as (j & Hj & Hle & Hnth).
      exists (S j). rewrite Hj. repeat split; [lia | exact Hnth].
Qed.

(** X16: the entry handed to the two handlers carries the label that the
    user picked in the select box; when the labels are pairwise distinct
    it is the entry at the picked position.  A pick within the list never
    ends in the ValueError or IndexError of lines 165-166. *)
Theorem X16_selected_entry_has_picked_label (bucket : Bucket)
  (file_list : list entry) (file : entry) (w : world) :
  let options := map (option_label os) file_list in
  nth_error file_list (selected_option user) = Some file ->
  exists selected_file,
    In selected_file file_list /\
    option_label os selected_file = option_label os file /\
    (NoDup options -> selected_file = file) /\
    tab2_selected os user bucket file_list options
      (nth_error options (selected_option user)) w =
    bind (button "Visualizar PDF" (click_visualizar user)
            (visualizar_pdf os bucket selected_file))
         (fun _ => button "Download PDF" (click_download user)
                     (download_pdf os bucket selected_file)) w.
Proof.
  intros options Hfile.
  assert (Hpick : nth_error options (selected_option user)
                  = Some (option_label os file)).
  { unfold options. now apply map_nth_error. }
  destruct (index_nth_error options _ _ Hpick) as (j & Hj & Hle & Hnth).
  unfold options in Hnth. rewrite nth_error_map in Hnth.
  destruct (nth_error file_list j) as [selected_file|] eqn:Hsel;
    [|discriminate].
  simpl in Hnth. injection Hnth as Hlabel.
  exists selected_file. repeat split.
  - now apply (nth_error_In file_list j).
  - exact Hlabel.
  - intros Hnd.
    assert (Hij : j = selected_option user).
    { apply (proj1 (NoDup_nth_error options) Hnd).
      - apply nth_error_Some. unfold options.
        rewrite nth_error_map, Hsel. discriminate.
      - rewrite Hpick. unfold options.
        rewrite nth_error_map, Hsel. simpl. now rewrite Hlabel. }
    rewrite Hij in Hsel. congruence.
  - unfold tab2_selected, index_of, getitem. rewrite Hpick, Hj.
    unfold bind at 1, ret. unfold bind at 1. rewrite Hsel. reflexivity.
Qed.

End BrowseMore.

Lemma X15_witness :
  Forall no_object_request
    (emitted (tab2 sample_os (inr refusing_bucket) idle_user) empty_world) /\
  forall p,
    fs (snd (tab2 sample_os (inr refusing_bucket) idle_user empty_world)) p
    = fs empty_world p.
Proof.
  apply (X15_browsing_requests_nothing sample_os idle_user
           (inr refusing_bucket) empty_world); reflexivity.
Defined.

Lemma X16_witness :
  exists selected_file,
    In selected_file (catalog tied_listing) /\
    option_label sample_os selected_file
      = option_label sample_os (mkEntry "id-b" "b.pdf" 2048 100) /\
    (NoDup (map (option_label sample_os) (catalog tied_listing)) ->
     selected_file = mkEntry "id-b" "b.pdf" 2048 100) /\
    tab2_selected sample_os idle_user refusing_bucket (catalog tied_listing)
      (map (option_label sample_os) (catalog tied_listing))
      (nth_error (map (option_label sample_os) (catalog tied_listing))
         (selected_option idle_user)) empty_world =
    bind (button "Visualizar PDF" (click_visualizar idle_user)
            (visualizar_pdf sample_os refusing_bucket selected_file))
         (fun _ => button "Download PDF" (click_download idle_user)
                     (download_pdf sample_os refusing_bucket selected_file))
         empty_world.
Proof.
  apply (X16_selected_entry_has_picked_label sample_os idle_user
           refusing_bucket (catalog tied_listing)
           (mkEntry "id-b" "b.pdf" 2048 100) empty_world).
  reflexivity.
Defined.

Section RequestsMore.

Variables (os : OS) (user : User).

Lemma download_asks_within (bucket : Bucket) (file_list : list entry)
  (file : entry) :
  In file file_list ->
  emits (asks_within file_list)
    (download_file_from_b2 os bucket (e_id file) (e_name file)).
Proof.
  intros Hin. unfold download_file_from_b2, download_try. effects.
  simpl. now apply in_map.
Qed.

Lemma sign_asks_within (bucket : Bucket) (file_list : list entry)
  (file : entry) :
  In file file_list ->
  emits (asks_within file_list) (get_signed_url bucket (e_name file) 60).
Proof.
  intros Hin. unfold get_signed_url. effects; simpl.
  - split; [now apply in_map | reflexivity].
  - now apply in_map.
Qed.

Lemma emits_bind_ret {A B : Type} (P : event -> Prop) (a : A)
  (k : A -> M B) :
  emits P (k a) -> emits P (bind (ret a) k).
Proof. intros H w. exact (H w). Qed.

Lemma keeps_file_bind_ret {A B : Type} (p : string) (a : A)
  (k : A -> M B) :
  keeps_file p (k a) -> keeps_file p (bind (ret a) k).
Proof. intros H w. exact (H w). Qed.

Lemma emits_bind_raise {A B : Type} (P : event -> Prop) (e : exn)
  (k : A -> M B) :
  emits P (bind (raise e) k).
Proof. apply emits_silent. reflexivity. Qed.

Lemma keeps_file_bind_raise {A B : Type} (p : string) (e : exn)
  (k : A -> M B) :
  keeps_file p (bind (raise e) k).
Proof. intros w. reflexivity. Qed.

Lemma emits_bind_answer {A B : Type} (P : event -> Prop) (e : event)
  (a : A) (k : A -> M B) :
  P e -> emits P (k a) -> emits P (bind (answer e (inr a)) k).
Proof.
  intros He Hk w. destruct (Hk (emit e w)) as (evs & Hlog & Hall).
  exists (e :: evs). split; [|now constructor].
  unfold bind, answer. rewrite Hlog. simpl. now rewrite <- app_assoc.
Qed.

Lemma keeps_file_bind_answer {A B : Type} (p : string) (e : event)
  (a : A) (k : A -> M B) :
  keeps_file p (k a) -> keeps_file p (bind (answer e (inr a)) k).
Proof. intros Hk w. exact (Hk (emit e w)). Qed.

Lemma tab2_selected_asks_within (bucket : Bucket) (file_list : list entry)
  (options : list string) (selected_filename : option string) :
  emits (asks_within file_list)
    (tab2_selected os user bucket file_list options selected_filename).
Proof.
  unfold tab2_selected. apply emits_bind.
  - unfold index_of. effects.
  - intros i. unfold getitem.
    destruct (nth_error file_list i) as [file|] eqn:Hfile.
    + assert (Hin : In file file_list) by now apply (nth_error_In _ i).
      apply emits_bind_ret.
      unfold button, visualizar_pdf, download_pdf.
      effects;
        first [ now apply sign_asks_within
              | now apply download_asks_within ].
    + apply emits_bind_raise.
Qed.

(** X17: whatever the user picks and presses, the browse view requests
    from the bucket only what belongs to the catalog it has just built:
    downloads by the id of a catalog entry, signed URLs for the name of a
    catalog entry and always for 60 seconds, and never an upload. *)
Theorem X17_requests_stay_within_catalog (bucket : Bucket)
  (l : list ls_item) (w : world) :
  ls bucket = inr l ->
  Forall (asks_within (catalog l)) (emitted (tab2 os (inr bucket) user) w).
Proof.
  intros Hls. apply emits_emitted.
  unfold tab2. change (initialize_b2 (inr bucket)) with (ret bucket).
  apply emits_bind; [now apply emits_show | intros _].
  apply emits_try; [|intros e; now apply emits_show].
  apply emits_bind_ret. rewrite Hls.
  apply emits_bind_answer; [exact I|].
  destruct (Py.nonempty (build_files l)); [|now apply emits_show].
  rewrite <- catalog_eq.
  apply emits_bind; [now apply emits_selectbox | intros selected_filename].
  apply tab2_selected_asks_within.
Qed.

(** X18: when the session cannot be initialised or the listing call
    raises, the browse view shows that exception in one error message,
    shows neither select box nor buttons, and changes no file; the
    listing is requested only if the session was initialised. *)
Theorem X18_listing_failure_is_reported
  (initialize_b2_answer : exn + Bucket) (e : exn) (w : world) :
  listing_failure initialize_b2_answer = Some e ->
  emitted (tab2 os initialize_b2_answer user) w =
    (st_header "Visualizar/Download de PDFs" ::
     match initialize_b2_answer with
     | inl _ => []
     | inr _ => [call_ls]
     end ++ [st_error ("Erro ao listar arquivos: " ++ e)])%list /\
  fs (snd (tab2 os initialize_b2_answer user w)) = fs w.
Proof.
  unfold listing_failure. intros Hfail.
  unfold tab2, bind, try_except, show, initialize_b2, answer.
  destruct initialize_b2_answer as [e0|bucket].
  - injection Hfail as ->. split; [|reflexivity].
    apply emitted_eq. simpl. now rewrite <- app_assoc.
  - destruct (ls bucket) as [e0|l]; [|discriminate].
    injection Hfail as ->. split; [|reflexivity].
    apply emitted_eq. simpl. now rewrite <- !app_assoc.
Qed.

End RequestsMore.

Lemma X17_witness :
  Forall (asks_within (catalog tied_listing))
    (emitted (tab2 sample_os (inr refusing_bucket) sample_user) empty_world).
Proof.
  apply (X17_requests_stay_within_catalog sample_os sample_user
           refusing_bucket tied_listing empty_world).
  reflexivity.
Defined.

Lemma X18_witness :
  emitted (tab2 sample_os (inr failing_bucket) sample_user) empty_world =
    [ st_header "Visualizar/Download de PDFs";
      call_ls;
      st_error "Erro ao listar arquivos: bucket listing timed out" ] /\
  fs (snd (tab2 sample_os (inr failing_bucket) sample_user empty_world))
    = fs empty_world.
Proof.
  exact (X18_listing_failure_is_reported sample_os sample_user
           (inr failing_bucket) "bucket listing timed out" empty_world
           eq_refl).
Defined.

(** ** The upload tab *)

Section UploadMore.

Variables (os : OS) (user : User).

(** X19: a successful upload sends the chosen bytes under the chosen name
    with the content type application/pdf, reports the identifier that
    the SDK returned and appends one record (name, identifier, byte count,
    time) to the session's list, creating the list when it is missing. *)
Theorem X19_upload_is_sent_and_remembered (bucket : Bucket) (name : string)
  (value : list byte) (file_info : FileVersion) (w : world) :
  uploaded_file user = Some (name, value) ->
  click_enviar user = true ->
  upload_bytes bucket value name "application/pdf" = inr file_info ->
  let run := tab1 os (inr bucket) user w in
  emitted (tab1 os (inr bucket) user) w =
    [ st_header "Upload de PDF para o Backblaze";
      st_file_uploader "Escolha um arquivo PDF";
      st_info ("Arquivo: " ++ name ++ " (" ++
               kb_2f os (Z.of_nat (List.length value)) ++ " KB)");
      st_button "Enviar para o Backblaze";
      call_upload_bytes value name "application/pdf";
      st_success ("Arquivo enviado com sucesso! ID: " ++ id_ file_info) ] /\
  uploaded_files (snd run) =
    Some (match uploaded_files w with
          | Some l => l
          | None => []
          end ++
          [ {| u_name := name;
               u_id := id_ file_info;
               u_size := Z.of_nat (List.length value);
               u_timestamp := time_time os |} ])%list /\
  fs (snd run) = fs w.
Proof.
  intros Hfile Hclick Hup run.
  assert (Hrun : run =
    (Ok tt,
     set_uploaded_files
       (Some (match uploaded_files w with
              | Some l => l
              | None => []
              end ++
              [ {| u_name := name;
                   u_id := id_ file_info;
                   u_size := Z.of_nat (List.length value);
                   u_timestamp := time_time os |} ])%list)
       (emit_all
          [ st_header "Upload de PDF para o Backblaze";
            st_file_uploader "Escolha um arquivo PDF";
            st_info ("Arquivo: " ++ name ++ " (" ++
                     kb_2f os (Z.of_nat (List.length value)) ++ " KB)");
            st_button "Enviar para o Backblaze";
            call_upload_bytes value name "application/pdf";
            st_success ("Arquivo enviado com sucesso! ID: "
                        ++ id_ file_info) ] w))).
  { unfold run, tab1, button, try_except, bind, show, initialize_b2,
      answer, remember_upload.
    rewrite Hfile, Hclick, Hup. reflexivity. }
  repeat split.
  - apply emitted_eq. fold run. rewrite Hrun. cbn [snd set_uploaded_files log].
    apply log_emit_all.
  - now rewrite Hrun.
  - now rewrite Hrun.
Qed.

(** X20: when the session cannot be initialised or the upload raises,
    the upload tab shows that exception in one error message and records
    nothing in the session. *)
Theorem X20_failed_upload_is_not_remembered
  (initialize_b2_answer : exn + Bucket) (name : string) (value : list byte)
  (e : exn) (w : world) :
  uploaded_file user = Some (name, value) ->
  click_enviar user = true ->
  upload_failure initialize_b2_answer value name = Some e ->
  let run := tab1 os initialize_b2_answer user w in
  fst run = Ok tt /\
  last (emitted (tab1 os initialize_b2_answer user) w) (st_title "")
    = st_error ("Erro ao enviar arquivo: " ++ e) /\
  existsb (fun ev => match ev with st_success _ => true | _ => false end)
    (emitted (tab1 os initialize_b2_answer user) w) = false /\
  uploaded_files (snd run) = uploaded_files w.
Proof.
  intros Hfile Hclick Hfail run. unfold upload_failure in Hfail.
  unfold run, tab1, button, try_except, bind, show, initialize_b2, answer.
  rewrite Hfile, Hclick.
  destruct initialize_b2_answer as [e0|bucket].
  - injection Hfail as ->. repeat split.
    + erewrite emitted_eq; [|simpl; rewrite <- !app_assoc; reflexivity].
      reflexivity.
    + erewrite emitted_eq; [|simpl; rewrite <- !app_assoc; reflexivity].
      reflexivity.
  - destruct (upload_bytes bucket value name "application/pdf") as [e0|info];
      [|discriminate].
    injection Hfail as ->. repeat split.
    + erewrite emitted_eq; [|simpl; rewrite <- !app_assoc; reflexivity].
      reflexivity.
    + erewrite emitted_eq; [|simpl; rewrite <- !app_assoc; reflexivity].
      reflexivity.
Qed.

Lemma tab1_uploads_only (initialize_b2_answer : exn + Bucket) :
  emits (uploads_only user) (tab1 os initialize_b2_answer user).
Proof.
  unfold tab1.
  apply emits_bind; [now apply emits_show | intros _].
  apply emits_bind; [now apply emits_show | intros _].
  destruct (uploaded_file user) as [[name value]|] eqn:Hfile;
    [|apply emits_ret].
  apply emits_bind; [now apply emits_show | intros _].
  unfold button.
  apply emits_bind; [now apply emits_show | intros _].
  destruct (click_enviar user) eqn:Hclick; [|apply emits_ret].
  apply emits_try; [|intros e; now apply emits_show].
  apply emits_bind;
    [apply emits_silent, initialize_b2_log | intros bucket].
  apply emits_bind.
  - apply emits_answer. simpl. auto.
  - intros file_info.
    apply emits_bind; [now apply emits_show | intros _].
    apply emits_silent. reflexivity.
Qed.

Lemma tab1_keeps_file (initialize_b2_answer : exn + Bucket) (p : string) :
  keeps_file p (tab1 os initialize_b2_answer user).
Proof. unfold tab1, button. frame. Qed.

(** X21: whatever happens, the upload tab requests nothing from the bucket
    but the upload of the chosen file, which it requests only when the
    button was pressed, with the content type application/pdf; it changes
    no file; and it leaves the session's list as it was or appends one
    record to it. *)
Theorem X21_upload_tab_invariants (initialize_b2_answer : exn + Bucket)
  (w : world) :
  let run := tab1 os initialize_b2_answer user w in
  Forall (uploads_only user) (emitted (tab1 os initialize_b2_answer user) w) /\
  (forall p, fs (snd run) p = fs w p) /\
  (uploaded_files (snd run) = uploaded_files w \/
   exists r,
     uploaded_files (snd run) =
     Some (match uploaded_files w with
           | Some l => l
           | None => []
           end ++ [r])%list).
Proof.
  intros run. split; [|split].
  - apply emits_emitted, tab1_uploads_only.
  - intros p. apply tab1_keeps_file.
  - unfold run, tab1, button, try_except, bind, show, initialize_b2,
      answer, remember_upload.
    destruct (uploaded_file user) as [[name value]|]; [|now left].
    destruct (click_enviar user); [|now left].
    destruct initialize_b2_answer as [e|bucket]; [now left|].
    destruct (upload_bytes bucket value name "application/pdf")
      as [e|file_info]; [now left|].
    right. eexists. reflexivity.
Qed.

End UploadMore.

Lemma X19_witness :
  emitted (tab1 sample_os (inr refusing_bucket) uploading_user) empty_world =
    [ st_header "Upload de PDF para o Backblaze";
      st_file_uploader "Escolha um arquivo PDF";
      st_info "Arquivo: new.pdf (0.00 KB)";
      st_button "Enviar para o Backblaze";
      call_upload_bytes pdf_magic "new.pdf" "application/pdf";
      st_success "Arquivo enviado com sucesso! ID: 4_z27c_f1001" ] /\
  uploaded_files
    (snd (tab1 sample_os (inr refusing_bucket) uploading_user empty_world)) =
    Some [ {| u_name := "new.pdf";
              u_id := "4_z27c_f1001";
              u_size := 4;
              u_timestamp := 1762128000%float |} ] /\
  fs (snd (tab1 sample_os (inr refusing_bucket) uploading_user empty_world))
    = fs empty_world.
Proof.
  exact (X19_upload_is_sent_and_remembered sample_os uploading_user
           refusing_bucket "new.pdf" pdf_magic
           (mkFileVersion "4_z27c_f1001" "new.pdf" 0 0) empty_world
           eq_refl eq_refl eq_refl).
Defined.

Lemma X20_witness :
  fst (tab1 sample_os (inr failing_bucket) uploading_user empty_world)
    = Ok tt /\
  last (emitted (tab1 sample_os (inr failing_bucket) uploading_user)
          empty_world) (st_title "")
    = st_error "Erro ao enviar arquivo: upload rejected" /\
  existsb (fun ev => match ev with st_success _ => true | _ => false end)
    (emitted (tab1 sample_os (inr failing_bucket) uploading_user)
       empty_world) = false /\
  uploaded_files
    (snd (tab1 sample_os (inr failing_bucket) uploading_user empty_world))
    = None.
Proof.
  exact (X20_failed_upload_is_not_remembered sample_os uploading_user
           (inr failing_bucket) "new.pdf" pdf_magic "upload rejected"
           empty_world eq_refl eq_refl eq_refl).
Defined.

(** ** The whole script *)

Section ScriptMore.

Variables (os : OS) (user : User).

Lemma emits_weaken {A : Type} (P Q : event -> Prop) (m : M A) :
  (forall e, P e -> Q e) -> emits P m -> emits Q m.
Proof.
  intros HPQ Hm w. destruct (Hm w) as (evs & Hlog & Hall).
  exists evs. split; [exact Hlog|].
  eapply Forall_impl; [|exact Hall]. exact HPQ.
Qed.

Lemma log_emitted {A : Type} (P : event -> Prop) (m : M A) (w : world) :
  emits P m -> log (snd (m w)) = (log w ++ emitted m w)%list.
Proof.
  intros Hm. destruct (Hm w) as (evs & Hlog & _).
  now rewrite (emitted_eq m w evs Hlog).
Qed.

Lemma tab1_emits_any (r : exn + Bucket) :
  emits (fun _ => True) (tab1 os r user).
Proof.
  apply (emits_weaken (uploads_only user)); [auto|].
  apply tab1_uploads_only.
Qed.

Lemma tab2_emits_any (r : exn + Bucket) :
  emits (fun _ => True) (tab2 os r user).
Proof.
  unfold tab2. effects.
  - now apply emits_selectbox.
  - apply (emits_weaken not_selectbox); [auto|].
    apply tab2_selected_quiet.
Qed.

(** X22: one run of the script shows, in this order, the title, the two
    tab labels, what the upload tab shows, what the browse view shows
    (run in the world that the upload tab left, with the answer that its
    own call of [initialize_b2] gets) and the footer.  The footer is
    shown whatever failed before it. *)
Theorem X22_script_layout (first retry : exn + Bucket) (w : world) :
  let w1 :=
    emit (st_tabs ["Upload de PDFs"; "Visualizar/Download de PDFs"])
      (emit (st_title "Sistema de Gerenciamento de PDFs") w) in
  let w2 := snd (tab1 os first user w1) in
  emitted (app os first retry user) w =
  ([ st_title "Sistema de Gerenciamento de PDFs";
     st_tabs ["Upload de PDFs"; "Visualizar/Download de PDFs"] ] ++
   emitted (tab1 os first user) w1 ++
   emitted (tab2 os (tab2_answer user first retry) user) w2 ++
   [ st_markdown "---";
     st_caption "Sistema de Gerenciamento de PDFs com Backblaze B2" ])%list.
Proof.
  intros w1 w2. apply emitted_eq.
  set (second := tab2_answer user first retry).
  pose proof (returns_unit _ w1 (tab1_returns os first user)) as Hr1.
  pose proof (returns_unit _ w2 (tab2_returns os second user)) as Hr2.
  pose proof (log_emitted _ _ w1 (tab1_emits_any first)) as Hl1.
  pose proof (log_emitted _ _ w2 (tab2_emits_any second)) as Hl2.
  fold w2 in Hl1.
  unfold app, bind, show. fold w1. fold second.
  destruct (tab1 os first user w1) as [r1 w2'] eqn:Ht1.
  simpl in Hr1, w2. subst r1. subst w2.
  destruct (tab2 os second user w2') as [r2 w3] eqn:Ht2.
  simpl in Hr2, Hl2. subst r2.
  simpl. rewrite Hl2. simpl in Hl1. rewrite Hl1. unfold w1. simpl.
  now rewrite <- !app_assoc.
Qed.

Lemma handlers_keep_file (bucket : Bucket) (file : entry) (p : string) :
  p <> temp_file_path os (e_name file) ->
  keeps_file p (visualizar_pdf os bucket file) /\
  keeps_file p (download_pdf os bucket file).
Proof.
  intros Hne.
  pose proof (download_keeps_other_files os bucket (e_id file)
                (e_name file) p Hne) as Hd.
  split.
  - unfold visualizar_pdf, get_signed_url. frame.
  - unfold download_pdf. frame.
Qed.

Lemma tab2_selected_keeps_file (bucket : Bucket) (file_list : list entry)
  (options : list string) (selected_filename : option string)
  (p : string) :
  (forall e, In e file_list -> p <> temp_file_path os (e_name e)) ->
  keeps_file p
    (tab2_selected os user bucket file_list options selected_filename).
Proof.
  intros Hall. unfold tab2_selected. apply keeps_file_bind.
  - unfold index_of. frame.
  - intros i. unfold getitem.
    destruct (nth_error file_list i) as [file|] eqn:Hfile;
      [|apply keeps_file_bind_raise].
    apply keeps_file_bind_ret.
    destruct (handlers_keep_file bucket file p) as [Hv Hd].
    { apply Hall. now apply (nth_error_In _ i). }
    unfold button. frame.
Qed.

(** X23: the only files that a run of the script can create, change or
    remove are scratch files of entries of the catalog it has just built
    (from the listing of the bucket that the call of line 132 got): a
    path that is the scratch path of none of them holds after the run
    what it held before. *)
Theorem X23_only_scratch_files_change (first retry : exn + Bucket)
  (p : string) (w : world) :
  (forall bucket l e,
     tab2_answer user first retry = inr bucket -> ls bucket = inr l ->
     In e (catalog l) -> p <> temp_file_path os (e_name e)) ->
  fs (snd (app os first retry user w)) p = fs w p.
Proof.
  intros Hall. revert w.
  change (keeps_file p (app os first retry user)).
  unfold app. frame.
  - apply tab1_keeps_file.
  - unfold tab2.
    apply keeps_file_bind; [apply keeps_file_show | intros _].
    apply keeps_file_try; [|intros e; apply keeps_file_show].
    destruct (tab2_answer user first retry) as [e|bucket] eqn:Hanswer.
    + change (initialize_b2 (inl e)) with (@raise Bucket e).
      apply keeps_file_bind_raise.
    + change (initialize_b2 (inr bucket)) with (ret bucket).
      apply keeps_file_bind_ret.
      destruct (ls bucket) as [e|l] eqn:Hls.
      * intros w'. reflexivity.
      * apply keeps_file_bind_answer.
        destruct (Py.nonempty (build_files l)); [|apply keeps_file_show].
        rewrite <- catalog_eq.
        apply keeps_file_bind; [apply keeps_file_selectbox | intros s].
        apply tab2_selected_keeps_file.
        intros e He. now apply (Hall bucket l e).
Qed.

End ScriptMore.

Lemma X23_witness :
  fs (snd (app sample_os (inl "account not authorized")
             (inr refusing_bucket) retrying_user
             (write_file "/tmp/keep.txt" (Some pdf_magic) empty_world)))
     "/tmp/keep.txt" = Some pdf_magic.
Proof.
  rewrite (X23_only_scratch_files_change sample_os retrying_user
             (inl "account not authorized") (inr refusing_bucket)
             "/tmp/keep.txt").
  - reflexivity.
  - intros bucket l e Hb Hls He.
    unfold tab2_answer, tab1_initializes in Hb. simpl in Hb.
    injection Hb as <-. injection Hls as <-.
    destruct He as [<-|[<-|[<-|[]]]]; discriminate.
Defined.

(** X24: the first entry of the catalog, which the select box preselects
    ([index=0]), has the greatest upload timestamp of the catalog. *)
Theorem X24_preselected_entry_is_newest (l : list ls_item) (first : entry)
  (rest : list entry) :
  catalog l = first :: rest ->
  forall e, In e (catalog l) ->
  e_upload_timestamp e <= e_upload_timestamp first.
Proof.
  intros Hcat e He.
  pose proof (sort_desc_sorted e_upload_timestamp
                (Py.values (build_files l))) as Hs.
  fold (sorted_file_list (build_files l)) in Hs.
  rewrite <- catalog_eq, Hcat in Hs. rewrite Hcat in He.
  inversion Hs as [|? ? _ Hall]; subst.
  destruct He as [<-|He]; [lia|].
  rewrite Forall_forall in Hall. exact (Hall e He).
Qed.

Lemma X24_witness :
  e_upload_timestamp (mkEntry "id-a" "a.pdf" 128 100)
  <= e_upload_timestamp entry_c.
Proof.
  apply (X24_preselected_entry_is_newest tied_listing entry_c
           [ mkEntry "id-b" "b.pdf" 2048 100;
             mkEntry "id-a" "a.pdf" 128 100 ] eq_refl).
  simpl. right. right. left. reflexivity.
Defined.
